(** * JobPulse: the search-request and response-normalisation core

    A shallow embedding of the Python package [jobpulse] (the modules
    [config], [locations], [models], [http_client] and [scraper]) together
    with the properties its design document states about them.

    Conventions of the embedding.
    - A Python [str] is a Rocq [string] whose characters are the code
      points 0..255; [lower], [strip] and [quote_plus] act on that range
      as CPython does.
    - A Python [int] is a [Z].
    - A time in seconds is a rational [Q]: sums and differences of times
      are exact, where CPython rounds them to binary64.
    - A function that raises returns [Raise e]; a function that touches
      the process state (the clock, the rate limiter, the connection pool,
      the network) is a state transformer over [world].
    - Logging calls are left out: they do not influence any result. *)

From Stdlib Require Import ZArith QArith List String Ascii Bool Lia.
From Stdlib Require Import Numbers.DecimalString.
From Stdlib Require Import Floats.PrimFloat.
From Stdlib Require Import Lqa Qpower.
Import ListNotations.

Set Warnings "-register-all".

Close Scope Q_scope.
Close Scope Z_scope.
Open Scope nat_scope.
Open Scope string_scope.

(** ** Python built-ins used by the package *)

Module py.

(** [str(n)] and [f"{n}"] for an [int]. *)
Definition str_int (n : Z) : string :=
  NilZero.string_of_int (Z.to_int n).

(** The conditional expression ['true' if b else 'false']. *)
Definition js_bool (b : bool) : string :=
  if b then "true" else "false".

(** Truth value of a string: [bool(s)]. *)
Definition nonempty (s : string) : bool :=
  match s with
  | EmptyString => false
  | String _ _ => true
  end.

Definition code (c : ascii) : nat := nat_of_ascii c.

Definition between (lo hi n : nat) : bool :=
  Nat.leb lo n && Nat.leb n hi.

(** Characters with an upper-case mapping below code point 256:
    A-Z, and the Latin-1 capitals U+00C0..U+00DE except the
    multiplication sign U+00D7. *)
Definition is_upper (c : ascii) : bool :=
  between 65 90 (code c)
  || (between 192 222 (code c) && negb (Nat.eqb (code c) 215)).

Definition lower_char (c : ascii) : ascii :=
  if is_upper c then ascii_of_nat (code c + 32) else c.

(** [s.lower()] *)
Fixpoint lower (s : string) : string :=
  match s with
  | EmptyString => EmptyString
  | String c r => String (lower_char c) (lower r)
  end.

(** [c.isspace()]: TAB, LF, VT, FF, CR, FS, GS, RS, US, SPACE, NEL and
    the no-break space. *)
Definition is_space (c : ascii) : bool :=
  between 9 13 (code c) || between 28 32 (code c)
  || Nat.eqb (code c) 133 || Nat.eqb (code c) 160.

(** [s.lstrip()] *)
Fixpoint lstrip (s : string) : string :=
  match s with
  | EmptyString => EmptyString
  | String c r => if is_space c then lstrip r else s
  end.

(** [s.rstrip()]: a character is kept when something that is kept
    follows it or when it is not white space. *)
Fixpoint rstrip (s : string) : string :=
  match s with
  | EmptyString => EmptyString
  | String c r =>
      match rstrip r with
      | EmptyString => if is_space c then EmptyString else String c EmptyString
      | String d t => String c (String d t)
      end
  end.

(** [s.strip()] *)
Definition strip (s : string) : string := rstrip (lstrip s).

(** [sub in s]: [sub] occurs in [s] as a contiguous piece; the empty
    string occurs in every string. *)
Fixpoint contains (sub s : string) : bool :=
  String.prefix sub s
  || match s with
     | EmptyString => false
     | String _ r => contains sub r
     end.

(** Every character, in the order of the code points. *)
Definition every_char : list ascii := map ascii_of_nat (seq 0 256).

(** *** [urllib.parse.quote_plus] *)

Definition hex_digit (n : nat) : ascii :=
  if Nat.ltb n 10 then ascii_of_nat (48 + n) else ascii_of_nat (55 + n).

(** ["%XX"] for one byte. *)
Definition percent (byte : nat) : string :=
  String "%" (String (hex_digit (byte / 16))
               (String (hex_digit (byte mod 16)) EmptyString)).

(** The characters [quote] never escapes: letters, digits and [_.-~]. *)
Definition always_safe (c : ascii) : bool :=
  between 65 90 (code c) || between 97 122 (code c)
  || between 48 57 (code c)
  || Nat.eqb (code c) 95 || Nat.eqb (code c) 46
  || Nat.eqb (code c) 45 || Nat.eqb (code c) 126.

(** The UTF-8 encoding of a code point below 256. *)
Definition utf8 (c : ascii) : list nat :=
  if Nat.ltb (code c) 128 then [code c]
  else [192 + code c / 64; 128 + code c mod 64].

Definition quote_plus_char (c : ascii) : string :=
  if Nat.eqb (code c) 32 then "+"
  else if always_safe c then String c EmptyString
  else String.concat "" (map percent (utf8 c)).

(** [quote_plus(s)]: the string is UTF-8 encoded, every byte outside the
    safe set is percent-escaped and every space becomes a plus sign. *)
Fixpoint quote_plus (s : string) : string :=
  match s with
  | EmptyString => EmptyString
  | String c r => quote_plus_char c ++ quote_plus r
  end.

(** *** Values decoded from JSON

    What [json.loads] (behind [response.json()]) can return: [None],
    [bool], [int], [float], [str], [list] and [dict] with string keys.
    A [dict] is kept as its items in insertion order. *)
Inductive value : Type :=
| JNull
| JBool (b : bool)
| JInt (n : Z)
| JFloat (x : float)
| JString (s : string)
| JArray (items : list value)
| JObject (items : list (string * value)).

Definition dict : Type := list (string * value).

(** [d.get(key)] *)
Fixpoint dict_get (key : string) (d : dict) : option value :=
  match d with
  | [] => None
  | (k, v) :: rest => if String.eqb k key then Some v else dict_get key rest
  end.

(** [bool(v)]: [None], [False], zero, and the empty string, list and
    dict are false. *)
Definition truthy (v : value) : bool :=
  match v with
  | JNull => false
  | JBool b => b
  | JInt n => negb (Z.eqb n 0)
  | JFloat x => negb (PrimFloat.eqb x PrimFloat.zero)
  | JString s => nonempty s
  | JArray items => match items with [] => false | _ :: _ => true end
  | JObject items => match items with [] => false | _ :: _ => true end
  end.

(** [v != s] for a string [s]: a value that is not a string is never
    equal to one. *)
Definition differs_from_str (v : value) (s : string) : bool :=
  match v with
  | JString t => negb (String.eqb t s)
  | _ => true
  end.

(** [type(v).__name__] *)
Definition type_name (v : value) : string :=
  match v with
  | JNull => "NoneType"
  | JBool _ => "bool"
  | JInt _ => "int"
  | JFloat _ => "float"
  | JString _ => "str"
  | JArray _ => "list"
  | JObject _ => "dict"
  end.

End py.

(** ** The part of pydantic the models rely on

    Validation of a model collects one entry per offending field, in
    field order, instead of stopping at the first. *)

Module pydantic.

Record line_error : Type := LineError { loc : list string; kind : string }.

Definition validated (A : Type) : Type := (list line_error + A)%type.

Definition valid {A} (a : A) : validated A := inr a.
Definition invalid {A} (k : string) : validated A := inl [LineError [] k].

(** Apply a validated function to a validated argument, keeping the
    errors of both. *)
Definition ap {A B} (f : validated (A -> B)) (x : validated A) : validated B :=
  match f, x with
  | inr g, inr a => inr (g a)
  | inr _, inl ex => inl ex
  | inl ef, inr _ => inl ef
  | inl ef, inl ex => inl (ef ++ ex)%list
  end.

(** Prefix the location of every error with the field (or index) it
    belongs to. *)
Definition under {A} (where_ : string) (x : validated A) : validated A :=
  match x with
  | inr a => inr a
  | inl es => inl (map (fun e => LineError (where_ :: loc e) (kind e)) es)
  end.

(** A field declared with [Field(...)]: it must be present. *)
Definition required {A} (field : string) (v : py.value -> validated A)
    (input : py.dict) : validated A :=
  match py.dict_get field input with
  | None => inl [LineError [field] "missing"]
  | Some x => under field (v x)
  end.

(** A field declared with a default (or a default factory): the default
    is taken, unvalidated, when the field is absent. *)
Definition optional {A} (field : string) (v : py.value -> validated A)
    (default : A) (input : py.dict) : validated A :=
  match py.dict_get field input with
  | None => inr default
  | Some x => under field (v x)
  end.

(** The white space that [str_strip_whitespace] removes.  The validator
    trims with the [str::trim] of Rust, whose white space is the Unicode
    property White_Space: TAB, LF, VT, FF, CR, SPACE, NEL and the
    no-break space, but, unlike [py.is_space], not the four separators
    FS, GS, RS and US. *)
Definition is_whitespace (c : ascii) : bool :=
  py.between 9 13 (py.code c) || Nat.eqb (py.code c) 32
  || Nat.eqb (py.code c) 133 || Nat.eqb (py.code c) 160.

Fixpoint trim_start (s : string) : string :=
  match s with
  | EmptyString => EmptyString
  | String c r => if is_whitespace c then trim_start r else s
  end.

Fixpoint trim_end (s : string) : string :=
  match s with
  | EmptyString => EmptyString
  | String c r =>
      match trim_end r with
      | EmptyString =>
          if is_whitespace c then EmptyString else String c EmptyString
      | String d t => String c (String d t)
      end
  end.

Definition trim (s : string) : string := trim_end (trim_start s).

(** [str]: only a string is a string; [str_strip_whitespace] trims it. *)
Definition str_ (strip_whitespace : bool) (x : py.value) : validated string :=
  match x with
  | py.JString s => valid (if strip_whitespace then trim s else s)
  | _ => invalid "string_type"
  end.

(** [Optional[T]] *)
Definition optional_ {A} (v : py.value -> validated A) (x : py.value)
  : validated (option A) :=
  match x with
  | py.JNull => valid None
  | _ => match v x with inr a => inr (Some a) | inl e => inl e end
  end.

(** The items of a [List[T]], each under its index. *)
Fixpoint items_ {A} (v : py.value -> validated A) (index : nat)
    (xs : list py.value) : validated (list A) :=
  match xs with
  | [] => valid []
  | x :: rest =>
      ap (ap (valid cons) (under (py.str_int (Z.of_nat index)) (v x)))
         (items_ v (S index) rest)
  end.

(** [List[T]] *)
Definition list_ {A} (v : py.value -> validated A) (x : py.value)
  : validated (list A) :=
  match x with
  | py.JArray xs => items_ v 0 xs
  | _ => invalid "list_type"
  end.

(** A nested model: the input has to be a dictionary. *)
Definition model_ {A} (v : py.dict -> validated A) (x : py.value)
  : validated A :=
  match x with
  | py.JObject d => v d
  | _ => invalid "model_type"
  end.

(** A scalar whose coercion rules belong to the library. *)
Definition scalar_ {A} (coerce : py.value -> string + A) (x : py.value)
  : validated A :=
  match coerce x with
  | inr a => valid a
  | inl k => invalid k
  end.

Record datetime : Type := Datetime {
  year : Z; month : Z; day : Z;
  hour : Z; minute : Z; second : Z; microsecond : Z;
  utcoffset : option Z
}.

(** What the package takes from its libraries without fixing it:
    pydantic's coercions into [int], [bool] and [datetime] (each gives
    the value or the type of the error), the text of a
    [ValidationError], and the [repr] of a float, a list or a dict. *)
Record library : Type := Library {
  int_ : py.value -> string + Z;
  bool_ : py.value -> string + bool;
  datetime_ : py.value -> string + datetime;
  error_str : list line_error -> string;
  repr : py.value -> string
}.

End pydantic.

(** ** [jobpulse/config.py] *)

Module config.

Definition BASE_URL : string := "https://bdjobs.com".
Definition API_BASE_URL : string := "https://api.bdjobs.com".

Definition DEFAULT_TIMEOUT : Q := 30%Q.
Definition MAX_RETRIES : nat := 3.
Definition RETRY_MIN_WAIT : Q := 1%Q.
Definition RETRY_MAX_WAIT : Q := 10%Q.

Definition MIN_REQUEST_INTERVAL : Q := (1 # 2)%Q.

Definition USER_AGENT : string := "JobPulse/1.0".

Definition MAX_CONNECTIONS : nat := 10.
Definition MAX_KEEPALIVE_CONNECTIONS : nat := 5.

End config.

(** ** [jobpulse/locations.py] *)

Module locations.

Record city : Type := City { id : string; name : string }.

Definition CITY_ID_MAP : list city :=
  [ City "1003" "Dhaka Division";
    City "14" "Dhaka";
    City "16" "Faridpur";
    City "19" "Gazipur";
    City "20" "Gopalganj";
    City "29" "Kishoreganj";
    City "34" "Madaripur";
    City "36" "Manikganj";
    City "39" "Munshiganj";
    City "43" "Narayanganj";
    City "44" "Narsingdi";
    City "53" "Rajbari";
    City "58" "Shariatpur";
    City "63" "Tangail";

    City "1002" "Chattogram Division";
    City "3" "Bandarban";
    City "1" "Brahmanbaria";
    City "8" "Chandpur";
    City "10" "Chattogram";
    City "13" "Cox's Bazar";
    City "12" "Cumilla";
    City "17" "Feni";
    City "27" "Khagrachhari";
    City "33" "Lakshmipur";
    City "48" "Noakhali";
    City "55" "Rangamati";

    City "1001" "Barishal Division";
    City "7" "Barguna";
    City "4" "Barishal";
    City "5" "Bhola";
    City "24" "Jhalakathi";
    City "51" "Patuakhali";
    City "52" "Pirojpur";

    City "1004" "Khulna Division";
    City "2" "Bagerhat";
    City "11" "Chuadanga";
    City "23" "Jashore";
    City "25" "Jhenaidah";
    City "28" "Khulna";
    City "31" "Kushtia";
    City "35" "Magura";
    City "37" "Meherpur";
    City "42" "Narail";
    City "57" "Satkhira";

    City "1005" "Mymensingh Division";
    City "22" "Jamalpur";
    City "40" "Mymensingh";
    City "46" "Netrokona";
    City "59" "Sherpur";

    City "1006" "Rajshahi Division";
    City "6" "Bogura";
    City "9" "Chapainawabganj";
    City "26" "Joypurhat";
    City "41" "Naogaon";
    City "45" "Natore";
    City "49" "Pabna";
    City "54" "Rajshahi";
    City "60" "Sirajganj";

    City "1007" "Rangpur Division";
    City "15" "Dinajpur";
    City "18" "Gaibandha";
    City "30" "Kurigram";
    City "32" "Lalmonirhat";
    City "47" "Nilphamari";
    City "50" "Panchagarh";
    City "56" "Rangpur";
    City "64" "Thakurgaon";

    City "1008" "Sylhet Division";
    City "21" "Habiganj";
    City "38" "Moulvibazar";
    City "61" "Sunamganj";
    City "62" "Sylhet" ].

(** The [for city in table: if city["name"].lower() == wanted: return
    city["id"]] loop, over an arbitrary table. *)
Fixpoint find_id (wanted : string) (table : list city) : option string :=
  match table with
  | [] => None
  | c :: rest =>
      if String.eqb (py.lower (name c)) wanted then Some (id c)
      else find_id wanted rest
  end.

Definition get_city_id (city_name : string) : option string :=
  if negb (py.nonempty city_name) then None
  else
    let city_name_lower := py.strip (py.lower city_name) in
    find_id city_name_lower CITY_ID_MAP.

(** The [for city in table: if city["id"] == city_id: return
    city["name"]] loop. *)
Fixpoint find_name (city_id : string) (table : list city) : option string :=
  match table with
  | [] => None
  | c :: rest =>
      if String.eqb (id c) city_id then Some (name c)
      else find_name city_id rest
  end.

Definition get_city_name (city_id : string) : option string :=
  if negb (py.nonempty city_id) then None
  else find_name city_id CITY_ID_MAP.

Definition get_all_cities : list city := CITY_ID_MAP.

(** [[city for city in CITY_ID_MAP if query_lower in city["name"].lower()]],
    and nothing at all for the empty query. *)
Definition search_cities (query : string) : list city :=
  if negb (py.nonempty query) then []
  else
    let query_lower := py.strip (py.lower query) in
    filter (fun c => py.contains query_lower (py.lower (name c))) CITY_ID_MAP.

End locations.

(** ** [jobpulse/models.py] *)

Module models.

Import pydantic.

(** One job listing.  [class Config] sets [str_strip_whitespace], so
    every string of a listing is trimmed when it is validated. *)
Record SearchResult : Type := {
  Jobid : string;
  AdType : string;
  jobTitle : string;
  companyName : string;
  JobTitleBng : string;
  deadline : string;
  deadlineDB : option datetime;
  publishDate : option datetime;
  eduRec : string;
  experience : string;
  standout : Z;
  logo : string;
  lantype : Z;
  location : string;
  JobLang : string;
  jobContext : option string;
  isEarlyAccess : bool;
  OnlineJob : bool
}.

Definition get_job_url (self : SearchResult) : string :=
  config.BASE_URL ++ "/jobs/details/" ++ Jobid self.

Definition is_remote (self : SearchResult) : bool := OnlineJob self.

(** Metadata about search results. *)
Record CommonFilters : Type := {
  total_records_found : Z;
  showd : string;
  totalpages : Z;
  total_vacancies : Z
}.

(** The complete response of the search endpoint. *)
Record SearchResults : Type := {
  message : string;
  statuscode : string;
  data : list SearchResult;
  premiumData : list SearchResult;
  common : CommonFilters
}.

Definition all_jobs (self : SearchResults) : list SearchResult :=
  (data self ++ premiumData self)%list.

Definition total_results (self : SearchResults) : nat :=
  List.length (data self) + List.length (premiumData self).

Definition is_success (self : SearchResults) : bool :=
  String.eqb (statuscode self) "1"
  && String.eqb (py.lower (message self)) "success".

Definition get_remote_jobs (self : SearchResults) : list SearchResult :=
  filter is_remote (all_jobs self).

(** *** Construction from keyword arguments

    Each model is validated field by field, in declaration order; keys
    of the input that name no field are ignored. *)
Section Validation.

Context (lib : library).

Definition new_SearchResult (kw : py.dict) : validated SearchResult :=
  ap (ap (ap (ap (ap (ap (ap (ap (ap (ap (ap (ap (ap (ap (ap (ap (ap (ap
    (valid Build_SearchResult)
    (required "Jobid" (str_ true) kw))
    (optional "AdType" (str_ true) "0" kw))
    (required "jobTitle" (str_ true) kw))
    (required "companyName" (str_ true) kw))
    (optional "JobTitleBng" (str_ true) "" kw))
    (optional "deadline" (str_ true) "" kw))
    (optional "deadlineDB" (optional_ (scalar_ (datetime_ lib))) None kw))
    (optional "publishDate" (optional_ (scalar_ (datetime_ lib))) None kw))
    (optional "eduRec" (str_ true) "" kw))
    (optional "experience" (str_ true) "" kw))
    (optional "standout" (scalar_ (int_ lib)) 0%Z kw))
    (optional "logo" (str_ true) "" kw))
    (optional "lantype" (scalar_ (int_ lib)) 0%Z kw))
    (optional "location" (str_ true) "" kw))
    (optional "JobLang" (str_ true) "1" kw))
    (optional "jobContext" (optional_ (str_ true)) None kw))
    (optional "isEarlyAccess" (scalar_ (bool_ lib)) false kw))
    (optional "OnlineJob" (scalar_ (bool_ lib)) false kw).

Definition new_CommonFilters (kw : py.dict) : validated CommonFilters :=
  ap (ap (ap (ap
    (valid Build_CommonFilters)
    (optional "total_records_found" (scalar_ (int_ lib)) 0%Z kw))
    (optional "showd" (str_ false) "1" kw))
    (optional "totalpages" (scalar_ (int_ lib)) 0%Z kw))
    (optional "total_vacancies" (scalar_ (int_ lib)) 0%Z kw).

Definition new_SearchResults (kw : py.dict) : validated SearchResults :=
  ap (ap (ap (ap (ap
    (valid Build_SearchResults)
    (required "message" (str_ false) kw))
    (required "statuscode" (str_ false) kw))
    (optional "data" (list_ (model_ new_SearchResult)) [] kw))
    (optional "premiumData" (list_ (model_ new_SearchResult)) [] kw))
    (required "common" (model_ new_CommonFilters) kw).

End Validation.

End models.

(** ** Exceptions, process state and the monad of effects *)

Module runtime.

(** The exception classes that occur.  The three httpx classes are all
    subclasses of [httpx.HTTPError]; [ValidationError] is pydantic's. *)
Inductive exn : Type :=
| ValueError (msg : string)
| RuntimeError (msg : string)
| TypeError (msg : string)
| HTTPStatusError (status_code : Z)
| TimeoutException
| RequestError
| ValidationError (errors : list pydantic.line_error).

(** [isinstance(e, httpx.HTTPError)] *)
Definition is_HTTPError (e : exn) : bool :=
  match e with
  | HTTPStatusError _ | TimeoutException | RequestError => true
  | _ => false
  end.

(** The mutable state a call can observe or change: the wall clock, the
    module globals [_last_request_time] and [_client] of [http_client],
    and the log of what went out (URLs requested, pauses taken). *)
Record world : Type := World {
  clock : Q;
  last_request_time : Q;
  client_open : bool;
  requests : list string;
  sleeps : list Q
}.

Inductive outcome (A : Type) : Type :=
| Return (a : A)
| Raise (e : exn).
Arguments Return {A} a.
Arguments Raise {A} e.

Definition M (A : Type) : Type := world -> outcome A * world.

Definition ret {A} (a : A) : M A := fun w => (Return a, w).

Definition raise {A} (e : exn) : M A := fun w => (Raise e, w).

Definition bind {A B} (m : M A) (k : A -> M B) : M B :=
  fun w =>
    match m w with
    | (Return a, w') => k a w'
    | (Raise e, w') => (Raise e, w')
    end.

(** [try: m except ...: handler]; a handler answers [None] for an
    exception none of its clauses names, which then propagates. *)
Definition try_except {A} (m : M A) (handler : exn -> option (M A)) : M A :=
  fun w =>
    match m w with
    | (Return a, w') => (Return a, w')
    | (Raise e, w') =>
        match handler e with
        | Some h => h w'
        | None => (Raise e, w')
        end
    end.

(** [time.time()] *)
Definition time : M Q := fun w => (Return (clock w), w).

(** [time.sleep(d)] *)
Definition sleep (d : Q) : M unit :=
  fun w =>
    (Return tt,
     World (clock w + d)%Q (last_request_time w) (client_open w)
           (requests w) (sleeps w ++ [d])%list).

(** [try: m finally: cleanup]: the clean-up runs whatever [m] did, and
    the outcome of [m] stands unless the clean-up itself raises. *)
Definition try_finally {A} (m : M A) (cleanup : M unit) : M A :=
  fun w =>
    match m w with
    | (o, w') =>
        match cleanup w' with
        | (Return _, w'') => (o, w'')
        | (Raise e, w'') => (Raise e, w'')
        end
    end.

Definition Qltb (a b : Q) : bool := negb (Qle_bool b a).

End runtime.

Declare Scope py_scope.
Delimit Scope py_scope with py.
Notation "x <- m ;; k" := (runtime.bind m (fun x => k))
  (at level 61, m at next level, right associativity) : py_scope.
Notation "m ;;; k" := (runtime.bind m (fun _ => k))
  (at level 61, right associativity) : py_scope.

(** ** The part of httpx and tenacity the client relies on *)

Module httpx.

Import runtime.

(** A response that arrived: its status and what [response.json()]
    does with its body, the decoded value or the text of the
    [ValueError] raised. *)
Record response : Type := Response {
  status_code : Z;
  json : string + py.value
}.

(** What one [client.get(url)] does: it times out, it fails in another
    way on the network, or it returns a response. *)
Inductive exchange : Type :=
| TimesOut
| Fails
| Arrives (r : response).

(** The network: the exchange that the [n]-th request of the process
    (counting from zero) to a URL results in. *)
Definition network : Type := nat -> string -> exchange.

(** [client.get(url)]: the request is logged and the network answers. *)
Definition get (net : network) (url : string) : M response :=
  fun w =>
    let w' := World (clock w) (last_request_time w) (client_open w)
                    (requests w ++ [url])%list (sleeps w) in
    match net (List.length (requests w)) url with
    | TimesOut => (Raise TimeoutException, w')
    | Fails => (Raise RequestError, w')
    | Arrives r => (Return r, w')
    end.

(** [response.is_success]: the status is one of the 2xx codes. *)
Definition is_success (r : response) : bool :=
  ((200 <=? status_code r) && (status_code r <=? 299))%Z.

(** [response.raise_for_status()] *)
Definition raise_for_status (r : response) : M unit :=
  if is_success r then ret tt
  else raise (HTTPStatusError (status_code r)).

End httpx.

Module tenacity.

Import runtime.
Local Open Scope py_scope.

(** [wait_exponential(multiplier, max)], with the base 2 and the
    minimum 0 of its defaults: [multiplier * 2 ** (attempt_number - 1)]
    seconds, at most [max] and at least 0.  The exponent is an integer,
    negative before the first attempt, where the power is a half. *)
Definition wait_exponential (multiplier max : Q) (attempt_number : nat) : Q :=
  let exp := (2 ^ (Z.of_nat attempt_number - 1))%Q in
  let result := (multiplier * exp)%Q in
  let capped := if Qltb max result then max else result in
  if Qltb 0 capped then capped else 0%Q.

Section Retrying.

Context {A : Type}.
Context (retry_if : exn -> bool) (wait : nat -> Q).

(** The attempts from number [attempt_number] on, when [left] more may
    follow it.  With [reraise=True] the last exception itself is
    raised when the attempts are used up. *)
Fixpoint attempts (left attempt_number : nat) (fn : M A) : M A :=
  try_except fn (fun e =>
    if retry_if e then
      match left with
      | O => None
      | S left' =>
          Some (sleep (wait attempt_number) ;;;
                attempts left' (S attempt_number) fn)
      end
    else None).

(** [@retry(retry=..., stop=stop_after_attempt(n), wait=...,
    reraise=True)] *)
Definition retry (stop_after_attempt : nat) (fn : M A) : M A :=
  attempts (stop_after_attempt - 1) 1 fn.

End Retrying.

End tenacity.

(** ** [jobpulse/http_client.py] *)

Module http_client.

Import runtime.
Local Open Scope py_scope.

Definition get_http_client : M unit :=
  fun w =>
    if negb (client_open w) then
      (Return tt,
       World (clock w) (last_request_time w) true (requests w) (sleeps w))
    else (Return tt, w).

Definition close_http_client : M unit :=
  fun w =>
    if client_open w then
      (Return tt,
       World (clock w) (last_request_time w) false (requests w) (sleeps w))
    else (Return tt, w).

(** [with http_client_context(): body]: the generator yields the shared
    client inside a [try] whose [finally] closes it, so the body runs
    between the two. *)
Definition http_client_context {A} (body : M A) : M A :=
  try_finally (get_http_client ;;; body) close_http_client.

Definition set_last_request_time (t : Q) : M unit :=
  fun w =>
    (Return tt,
     World (clock w) t (client_open w) (requests w) (sleeps w)).

Definition get_last_request_time : M Q :=
  fun w => (Return (last_request_time w), w).

Definition rate_limit : M unit :=
  current_time <- time ;;
  last <- get_last_request_time ;;
  let time_since_last_request := (current_time - last)%Q in
  (if Qltb time_since_last_request config.MIN_REQUEST_INTERVAL then
     sleep (config.MIN_REQUEST_INTERVAL - time_since_last_request)%Q
   else ret tt) ;;;
  now <- time ;;
  set_last_request_time now.

Section Client.

Context (lib : pydantic.library) (net : httpx.network).

(** [f"{v}"] *)
Definition format (v : py.value) : string :=
  match v with
  | py.JString s => s
  | py.JNull => "None"
  | py.JBool b => if b then "True" else "False"
  | py.JInt n => py.str_int n
  | _ => pydantic.repr lib v
  end.

(** The check of the API-level status: the error that a decoded body
    signals, if it signals one.  It does when it is a dictionary whose
    [statuscode] is truthy and not ["1"]; the text comes from [message],
    or is a placeholder. *)
Definition api_error (data : py.value) : option exn :=
  match data with
  | py.JObject d =>
      let status_code := py.dict_get "statuscode" d in
      match status_code with
      | Some sc =>
          if py.truthy sc && py.differs_from_str sc "1" then
            let error_msg :=
              match py.dict_get "message" d with
              | Some m => format m
              | None => "Unknown API error"
              end in
            Some (RuntimeError ("API error: " ++ error_msg))
          else None
      | None => None
      end
  | _ => None
  end.

(** The body of [api_get], one attempt. *)
Definition api_get_once (url : string) : M py.value :=
  rate_limit ;;;
  get_http_client ;;;
  try_except
    (response <- httpx.get net url ;;
     httpx.raise_for_status response ;;;
     data <- match httpx.json response with
             | inr v => ret v
             | inl e => raise (ValueError ("API returned invalid JSON: " ++ e))
             end ;;
     match api_error data with
     | Some e => raise e
     | None => ret tt
     end ;;;
     ret data)
    (fun e =>
       match e with
       | HTTPStatusError _ => Some (raise e)
       | TimeoutException => Some (raise e)
       | RequestError => Some (raise e)
       | _ => None
       end).

(** [api_get] as decorated: retried on [httpx.HTTPError] (which
    includes time-outs), at most [MAX_RETRIES] attempts. *)
Definition api_get (url : string) : M py.value :=
  tenacity.retry is_HTTPError
    (tenacity.wait_exponential config.RETRY_MIN_WAIT config.RETRY_MAX_WAIT)
    config.MAX_RETRIES
    (api_get_once url).

End Client.

End http_client.

(** ** [jobpulse/scraper.py] *)

Module scraper.

Import runtime.
Local Open Scope py_scope.

(** The arguments of [build_search_url] and [search_jobs]. *)
Record filters : Type := {
  keyword : string;
  location : string;
  page : Z;
  results_per_page : Z;
  job_type : string;
  job_level : string;
  age_start : Z;
  age_end : Z;
  posted_within : string;
  salary_start : Z;
  salary_end : Z;
  experience_start : Z;
  experience_end : Z;
  is_pro : Z;
  is_fresher : bool;
  gender : string;
  toggle_jobs : bool;
  armyp : string;
  workplace : string;
  facilities_for_pwd : string
}.

(** The arguments with every default of the signature. *)
Definition defaults (kw : string) : filters :=
  {| keyword := kw; location := ""; page := 1; results_per_page := 50;
     job_type := ""; job_level := "";
     age_start := 0; age_end := 0; posted_within := "";
     salary_start := 0; salary_end := 0;
     experience_start := 0; experience_end := 0;
     is_pro := 0; is_fresher := false; gender := ""; toggle_jobs := true;
     armyp := ""; workplace := ""; facilities_for_pwd := "" |}.

(** [f"{start}/{end}" if start > 0 or end > 0 else ""], the expression
    that builds each of the three ranges. *)
Definition range (start end_ : Z) : string :=
  if ((0 <? start) || (0 <? end_))%Z
  then py.str_int start ++ "/" ++ py.str_int end_
  else "".

(** The f-string that [build_search_url] returns, as a function of the
    four local variables it interpolates. *)
Definition search_url (a : filters)
    (location_param age_range salary_range experience_range : string)
  : string :=
  config.API_BASE_URL ++ "/Jobs/api/JobSearch/GetJobSearch?"
  ++ "Icat=&"
  ++ "industry=&"
  ++ "category=&"
  ++ "org=&"
  ++ "jobNature=&"
  ++ "Fcat=&"
  ++ "location=" ++ location_param ++ "&"
  ++ "Qot=&"
  ++ "jobType=" ++ py.quote_plus (job_type a) ++ "&"
  ++ "jobLevel=" ++ py.quote_plus (job_level a) ++ "&"
  ++ "postedWithin=" ++ posted_within a ++ "&"
  ++ "deadline=&"
  ++ "keyword=" ++ py.quote_plus (keyword a) ++ "&"
  ++ "pg=" ++ py.str_int (page a) ++ "&"
  ++ "qAge=" ++ age_range ++ "&"
  ++ "Salary=" ++ salary_range ++ "&"
  ++ "experience=" ++ experience_range ++ "&"
  ++ "gender=" ++ gender a ++ "&"
  ++ "MExp=&"
  ++ "genderB=&"
  ++ "MPostings=&"
  ++ "MCat=&"
  ++ "version=&"
  ++ "rpp=" ++ py.str_int (results_per_page a) ++ "&"
  ++ "Newspaper=&"
  ++ "armyp=" ++ armyp a ++ "&"
  ++ "QDisablePerson=&"
  ++ "pwd=&"
  ++ "workplace=" ++ workplace a ++ "&"
  ++ "facilitiesForPWD=" ++ facilities_for_pwd a ++ "&"
  ++ "SaveFilterList=&"
  ++ "UserFilterName=&"
  ++ "HUserFilterName=&"
  ++ "earlyJobAccess=&"
  ++ "isPro=" ++ py.str_int (is_pro a) ++ "&"
  ++ "ToggleJobs=" ++ py.js_bool (toggle_jobs a) ++ "&"
  ++ "isFresher=" ++ py.js_bool (is_fresher a).

Definition build_search_url (a : filters) : string :=
  let age_range := range (age_start a) (age_end a) in
  let salary_range := range (salary_start a) (salary_end a) in
  let experience_range := range (experience_start a) (experience_end a) in
  let location_id :=
    if py.nonempty (location a) then locations.get_city_id (location a)
    else None in
  let location_param :=
    match location_id with
    | Some i => i
    | None => ""
    end in
  search_url a location_param age_range salary_range experience_range.

Section Search.

Context (lib : pydantic.library) (net : httpx.network).

(** [SearchResults] called on the unpacked [response_data]: unpacking
    with the double star needs a mapping, and the model then validates
    the keyword arguments. *)
Definition SearchResults_of (response_data : py.value)
  : M models.SearchResults :=
  match response_data with
  | py.JObject kw =>
      match models.new_SearchResults lib kw with
      | inr results => ret results
      | inl errors => raise (ValidationError errors)
      end
  | other =>
      raise (TypeError
               ("jobpulse.models.SearchResults() argument after ** "
                ++ "must be a mapping, not " ++ py.type_name other))
  end.

Definition search_jobs (a : filters) : M models.SearchResults :=
  if negb (py.nonempty (keyword a))
     || negb (py.nonempty (py.strip (keyword a))) then
    raise (ValueError "Keyword parameter is required and cannot be empty")
  else if (page a <? 1)%Z then
    raise (ValueError "Page number must be >= 1")
  else if ((results_per_page a <? 1) || (100 <? results_per_page a))%Z then
    raise (ValueError "Results per page must be between 1 and 100")
  else
    try_except
      (let search_url := build_search_url a in
       response_data <- http_client.api_get lib net search_url ;;
       try_except
         (results <- SearchResults_of response_data ;;
          ret results)
         (fun e =>
            match e with
            | ValidationError errors =>
                Some (raise (ValueError ("Invalid API response format: "
                                         ++ pydantic.error_str lib errors)))
            | _ => None
            end))
      (fun e => Some (raise e)).

End Search.

End scraper.

(** ** A library instance and fixtures for concrete runs *)

Module fixtures.

Import runtime.

(** Strict scalars: a JSON integer is an [int], a JSON boolean a
    [bool]; no text is read as a timestamp. *)
Definition strict : pydantic.library :=
  {| pydantic.int_ := fun v =>
       match v with py.JInt n => inr n | _ => inl "int_type" end;
     pydantic.bool_ := fun v =>
       match v with py.JBool b => inr b | _ => inl "bool_type" end;
     pydantic.datetime_ := fun _ => inl "datetime_type";
     pydantic.error_str := fun es =>
       py.str_int (Z.of_nat (List.length es)) ++ " validation errors for SearchResults";
     pydantic.repr := py.type_name |}.

(** A fresh process: no request sent yet, no client created. *)
Definition boot : world :=
  {| clock := 1000%Q; last_request_time := 0%Q; client_open := false;
     requests := []; sleeps := [] |}.

(** A network that answers every request in the same way. *)
Definition always (x : httpx.exchange) : httpx.network := fun _ _ => x.

(** A network that answers the requests in turn from a script, and
    times out once the script is used up. *)
Definition scripted (script : list httpx.exchange) : httpx.network :=
  fun n _ => nth n script httpx.TimesOut.

Definition ok (v : py.value) : httpx.exchange :=
  httpx.Arrives (httpx.Response 200 (inr v)).

Definition listing (job_id title : string) : py.value :=
  py.JObject [("Jobid", py.JString job_id); ("jobTitle", py.JString title);
              ("companyName", py.JString "ACME")].

(** The response of the design document's scenario: two regular
    listings, one premium listing, 37 records on 8 pages. *)
Definition page_body : py.value :=
  py.JObject
    [("message", py.JString "Success"); ("statuscode", py.JString "1");
     ("data", py.JArray [listing "101" "Engineer"; listing "102" "Tester"]);
     ("premiumData", py.JArray [listing "900" "Lead"]);
     ("common", py.JObject [("total_records_found", py.JInt 37);
                            ("totalpages", py.JInt 8)])].

Definition dhaka_query : scraper.filters :=
  {| scraper.keyword := "software engineer"; scraper.location := "Dhaka";
     scraper.page := 1; scraper.results_per_page := 5;
     scraper.job_type := ""; scraper.job_level := "";
     scraper.age_start := 0; scraper.age_end := 0;
     scraper.posted_within := "";
     scraper.salary_start := 0; scraper.salary_end := 0;
     scraper.experience_start := 0; scraper.experience_end := 0;
     scraper.is_pro := 0; scraper.is_fresher := false;
     scraper.gender := ""; scraper.toggle_jobs := true;
     scraper.armyp := ""; scraper.workplace := "";
     scraper.facilities_for_pwd := "" |}.


(** A query whose age range has a negative lower end. *)
Definition negative_age_query : scraper.filters :=
  {| scraper.keyword := "driver"; scraper.location := "";
     scraper.page := 1; scraper.results_per_page := 50;
     scraper.job_type := ""; scraper.job_level := "";
     scraper.age_start := (-1); scraper.age_end := 0;
     scraper.posted_within := "";
     scraper.salary_start := 0; scraper.salary_end := 0;
     scraper.experience_start := 0; scraper.experience_end := 0;
     scraper.is_pro := 0; scraper.is_fresher := false;
     scraper.gender := ""; scraper.toggle_jobs := true;
     scraper.armyp := ""; scraper.workplace := "";
     scraper.facilities_for_pwd := "" |}.

End fixtures.

(** ** The vocabulary of the properties

    The notions of the design document, defined from its words, and what
    a caller of the package can observe of a failure. *)

Module spec.

Import runtime.

(** Two characters are the same letter when they are equal or one is the
    capital of the other. *)
Definition same_letter (a b : ascii) : bool :=
  Ascii.eqb a b
  || (py.is_upper a && Nat.eqb (py.code b) (py.code a + 32))
  || (py.is_upper b && Nat.eqb (py.code a) (py.code b + 32)).

(** Equality of two texts up to the case of their letters. *)
Fixpoint eq_ignore_case (s t : string) : bool :=
  match s, t with
  | EmptyString, EmptyString => true
  | String a s', String b t' => same_letter a b && eq_ignore_case s' t'
  | _, _ => false
  end.

(** A text that is empty or made of white space only. *)
Fixpoint blank (s : string) : bool :=
  match s with
  | EmptyString => true
  | String c r => py.is_space c && blank r
  end.


(** The encoding of a range as the document words it: empty when both
    endpoints are zero, start/end otherwise. *)
Definition segment (start end_ : Z) : string :=
  if ((start =? 0) && (end_ =? 0))%Z then ""
  else py.str_int start ++ "/" ++ py.str_int end_.

(** The three messages of the argument checks of [search_jobs]. *)
Definition validation_messages : list string :=
  [ "Keyword parameter is required and cannot be empty";
    "Page number must be >= 1";
    "Results per page must be between 1 and 100" ].

(** The search arguments that validation rejects. *)
Definition rejected (a : scraper.filters) : Prop :=
  blank (scraper.keyword a) = true
  \/ (scraper.page a < 1)%Z
  \/ (scraper.results_per_page a < 1)%Z
  \/ (100 < scraper.results_per_page a)%Z.

(** A decoded body carries the API's error signal when it is a dictionary
    whose status code is present, truthy and not the sentinel. *)
Definition signals_api_error (body : py.value) : Prop :=
  exists d sc,
    body = py.JObject d
    /\ py.dict_get "statuscode" d = Some sc
    /\ py.truthy sc = true
    /\ sc <> py.JString "1".

(** The four kinds of error of the design document. *)
Inductive error_kind : Type := Validation | Transport | API | Format.

(** What a caller can tell from the exception it catches: the class, and
    for a [ValueError] whether the message is one of the validation
    messages. *)
Definition kind_of (e : exn) : error_kind :=
  match e with
  | HTTPStatusError _ | TimeoutException | RequestError => Transport
  | RuntimeError _ => API
  | ValueError msg =>
      if existsb (String.eqb msg) validation_messages then Validation
      else Format
  | TypeError _ | ValidationError _ => Format
  end.

(** A transient failure of the transport: a time-out or another network
    error. *)
Definition transient (x : httpx.exchange) : bool :=
  match x with
  | httpx.TimesOut | httpx.Fails => true
  | httpx.Arrives _ => false
  end.

(** The exception that stands for a transient failure. *)
Definition failure (x : httpx.exchange) : exn :=
  match x with
  | httpx.TimesOut => TimeoutException
  | _ => RequestError
  end.

(** An exchange that delivered nothing usable: a transient failure, or a
    response with an error status. *)
Definition undelivered (x : httpx.exchange) : Prop :=
  match x with
  | httpx.Arrives r => httpx.is_success r = false
  | _ => True
  end.

(** The exchange that settles a call of the transport whose first
    request has number [first]: the [i]-th one after it, within the
    allowed attempts, when all before it delivered nothing and it
    delivers the response [r]. *)
Definition settles (net : httpx.network) (url : string) (first i : nat)
    (r : httpx.response) : Prop :=
  i < config.MAX_RETRIES
  /\ (forall j, j < i -> undelivered (net (first + j) url))
  /\ net (first + i) url = httpx.Arrives r
  /\ httpx.is_success r = true.

(** What lies behind a failure of each kind, for a search with
    arguments [a] whose first request would have number [first]. *)
Definition caused (lib : pydantic.library) (net : httpx.network)
    (a : scraper.filters) (first : nat) (k : error_kind) : Prop :=
  let url := scraper.build_search_url a in
  match k with
  | Validation => rejected a
  | Transport =>
      ~ rejected a
      /\ forall i, i < config.MAX_RETRIES -> undelivered (net (first + i) url)
  | API =>
      ~ rejected a
      /\ exists i r body,
           settles net url first i r
           /\ httpx.json r = inr body
           /\ signals_api_error body
  | Format =>
      ~ rejected a
      /\ exists i r,
           settles net url first i r
           /\ ((exists text, httpx.json r = inl text)
               \/ (exists body,
                     httpx.json r = inr body
                     /\ ~ signals_api_error body
                     /\ forall kw page,
                          body = py.JObject kw ->
                          models.new_SearchResults lib kw <> inr page))
  end.

(** What lies behind a page that a search returns. *)
Definition delivered (lib : pydantic.library) (net : httpx.network)
    (a : scraper.filters) (first : nat) (page : models.SearchResults) : Prop :=
  ~ rejected a
  /\ exists i r kw,
       settles net (scraper.build_search_url a) first i r
       /\ httpx.json r = inr (py.JObject kw)
       /\ ~ signals_api_error (py.JObject kw)
       /\ models.new_SearchResults lib kw = inr page.

(** The filter set [a] with another text as its location. *)
Definition with_location (a : scraper.filters) (l : string) : scraper.filters :=
  {| scraper.keyword := scraper.keyword a;
     scraper.location := l;
     scraper.page := scraper.page a;
     scraper.results_per_page := scraper.results_per_page a;
     scraper.job_type := scraper.job_type a;
     scraper.job_level := scraper.job_level a;
     scraper.age_start := scraper.age_start a;
     scraper.age_end := scraper.age_end a;
     scraper.posted_within := scraper.posted_within a;
     scraper.salary_start := scraper.salary_start a;
     scraper.salary_end := scraper.salary_end a;
     scraper.experience_start := scraper.experience_start a;
     scraper.experience_end := scraper.experience_end a;
     scraper.is_pro := scraper.is_pro a;
     scraper.is_fresher := scraper.is_fresher a;
     scraper.gender := scraper.gender a;
     scraper.toggle_jobs := scraper.toggle_jobs a;
     scraper.armyp := scraper.armyp a;
     scraper.workplace := scraper.workplace a;
     scraper.facilities_for_pwd := scraper.facilities_for_pwd a |}.

(** The pause that [api_get] is configured to take after its [n]-th
    attempt. *)
Definition backoff (n : nat) : Q :=
  tenacity.wait_exponential config.RETRY_MIN_WAIT config.RETRY_MAX_WAIT n.

(** The characters that may stand in a query string without being
    escaped, and the two that escaping itself produces. *)
Definition url_char (c : ascii) : bool :=
  py.always_safe c || Ascii.eqb c "+" || Ascii.eqb c "%".

(** Reading an escaped text: the value of the two hexadecimal digits of
    an escape, and the character that the text starts with, which is a
    space for a plus sign, the escaped character for one escape (or two,
    for a code point from 128 on) and the first character otherwise. *)
Definition hex_value (c : ascii) : nat :=
  if Nat.ltb (py.code c) 58 then py.code c - 48 else py.code c - 55.

Definition escaped_head (s : string) : option ascii :=
  match s with
  | EmptyString => None
  | String c r =>
      if Ascii.eqb c "+" then Some " "%char
      else if Ascii.eqb c "%" then
        match r with
        | String h1 (String h2 r2) =>
            let b := 16 * hex_value h1 + hex_value h2 in
            if Nat.ltb b 128 then Some (ascii_of_nat b)
            else
              match r2 with
              | String _ (String h3 (String h4 _)) =>
                  Some (ascii_of_nat
                          (64 * (b - 192) + (16 * hex_value h3 + hex_value h4 - 128)))
              | _ => None
              end
        | _ => None
        end
      else Some c
  end.

(** The fields that the models declare. *)
Definition listing_fields : list string :=
  [ "Jobid"; "AdType"; "jobTitle"; "companyName"; "JobTitleBng"; "deadline";
    "deadlineDB"; "publishDate"; "eduRec"; "experience"; "standout"; "logo";
    "lantype"; "location"; "JobLang"; "jobContext"; "isEarlyAccess";
    "OnlineJob" ].

Definition page_fields : list string :=
  [ "message"; "statuscode"; "data"; "premiumData"; "common" ].

(** A validation that failed, with the error [e] among its errors. *)
Definition fails_with {A} (e : pydantic.line_error)
    (x : pydantic.validated A) : Prop :=
  exists errors, x = inl errors /\ In e errors.

End spec.

(** ** What the effectful functions compute

    Pure counterparts of one attempt of the transport and of the parsing
    step, used to state the results of runs. *)

Module outline.

Import runtime.

(** The contract of the transport for a single exchange: a transport
    error for a failure on the network or an error status, a format error
    for a body that is not JSON, an API error for a body that signals
    one, and the decoded body otherwise. *)
Definition reply (lib : pydantic.library) (x : httpx.exchange)
  : outcome py.value :=
  match x with
  | httpx.TimesOut => Raise TimeoutException
  | httpx.Fails => Raise RequestError
  | httpx.Arrives r =>
      if httpx.is_success r then
        match httpx.json r with
        | inl text => Raise (ValueError ("API returned invalid JSON: " ++ text))
        | inr body =>
            match http_client.api_error lib body with
            | Some e => Raise e
            | None => Return body
            end
        end
      else Raise (HTTPStatusError (httpx.status_code r))
  end.

(** What [search_jobs] makes of the body that the transport returns:
    the page, a [ValueError] that wraps the validation errors, or the
    [TypeError] of unpacking something that is not a dictionary. *)
Definition parsed (lib : pydantic.library) (body : py.value)
  : outcome models.SearchResults :=
  match body with
  | py.JObject kw =>
      match models.new_SearchResults lib kw with
      | inr page => Return page
      | inl errors =>
          Raise (ValueError ("Invalid API response format: "
                             ++ pydantic.error_str lib errors))
      end
  | other =>
      Raise (TypeError ("jobpulse.models.SearchResults() argument after ** "
                        ++ "must be a mapping, not " ++ py.type_name other))
  end.

End outline.

(** * Properties *)

(** ** Characters and strings *)

Lemma every_char_complete (c : ascii) : In c py.every_char.
Proof.
  unfold py.every_char. rewrite <- (ascii_nat_embedding c).
  apply in_map, in_seq. pose proof (nat_ascii_bounded c). lia.
Qed.

Lemma for_every_char (P : ascii -> bool) :
  forallb P py.every_char = true -> forall c, P c = true.
Proof.
  intros H c. rewrite forallb_forall in H. apply H, every_char_complete.
Qed.

Lemma same_letter_lower_char (a b : ascii) :
  spec.same_letter a b = Ascii.eqb (py.lower_char a) (py.lower_char b).
Proof.
  assert (H : forallb (fun a => forallb (fun b =>
              Bool.eqb (spec.same_letter a b)
                       (Ascii.eqb (py.lower_char a) (py.lower_char b)))
              py.every_char) py.every_char = true) by (vm_compute; reflexivity).
  apply Bool.eqb_prop.
  exact (for_every_char _ (for_every_char _ H a) b).
Qed.

Lemma eq_ignore_case_lower (s t : string) :
  spec.eq_ignore_case s t = true <-> py.lower s = py.lower t.
Proof.
  revert t. induction s as [|a s IH]; intros [|b t]; simpl; try easy.
  rewrite andb_true_iff, same_letter_lower_char, Ascii.eqb_eq, IH.
  split.
  - intros [-> ->]. reflexivity.
  - intros H. injection H as H1 H2. auto.
Qed.

Lemma is_space_lower_char (c : ascii) :
  py.is_space (py.lower_char c) = py.is_space c.
Proof.
  apply Bool.eqb_prop.
  apply (for_every_char (fun c => Bool.eqb (py.is_space (py.lower_char c)) (py.is_space c))).
  vm_compute. reflexivity.
Qed.

Lemma lstrip_lower (s : string) : py.lstrip (py.lower s) = py.lower (py.lstrip s).
Proof.
  induction s as [|c s IH]; simpl; [reflexivity|].
  rewrite is_space_lower_char. destruct (py.is_space c); [exact IH | reflexivity].
Qed.

Lemma rstrip_lower (s : string) : py.rstrip (py.lower s) = py.lower (py.rstrip s).
Proof.
  induction s as [|c s IH]; simpl; [reflexivity|].
  rewrite IH, is_space_lower_char.
  destruct (py.rstrip s); simpl; [destruct (py.is_space c)|]; reflexivity.
Qed.

Lemma strip_lower (s : string) : py.strip (py.lower s) = py.lower (py.strip s).
Proof. unfold py.strip. rewrite lstrip_lower. apply rstrip_lower. Qed.

Lemma blank_lstrip (s : string) : spec.blank (py.lstrip s) = spec.blank s.
Proof.
  induction s as [|c s IH]; simpl; [reflexivity|].
  destruct (py.is_space c) eqn:E; simpl; [exact IH | now rewrite E].
Qed.

Lemma rstrip_empty (s : string) : py.rstrip s = "" <-> spec.blank s = true.
Proof.
  induction s as [|c s IH]; simpl; [easy|].
  rewrite andb_true_iff, <- IH.
  destruct (py.rstrip s); destruct (py.is_space c); split; try easy;
    intros [_ H]; discriminate.
Qed.

Lemma strip_empty (s : string) : py.strip s = "" <-> spec.blank s = true.
Proof. unfold py.strip. rewrite rstrip_empty. now rewrite blank_lstrip. Qed.

Lemma nonempty_false (s : string) : py.nonempty s = false <-> s = "".
Proof. destruct s; simpl; split; easy. Qed.

(** C2.  A result page is a success exactly when its status code is the
    sentinel ["1"] and its message is ["success"] up to case; as soon as
    either of the two fails, [is_success] is false. *)
Theorem is_success_needs_both (r : models.SearchResults) :
  (models.is_success r = true <->
     models.statuscode r = "1"
     /\ spec.eq_ignore_case (models.message r) "success" = true)
  /\ (models.is_success r = false <->
        models.statuscode r <> "1"
        \/ spec.eq_ignore_case (models.message r) "success" = false).
Proof.
  assert (Hiff : models.is_success r = true <->
     models.statuscode r = "1"
     /\ spec.eq_ignore_case (models.message r) "success" = true).
  { unfold models.is_success.
    rewrite andb_true_iff, !String.eqb_eq, eq_ignore_case_lower. reflexivity. }
  split; [exact Hiff|].
  rewrite <- not_true_iff_false, Hiff.
  destruct (string_dec (models.statuscode r) "1") as [E|E];
    destruct (spec.eq_ignore_case (models.message r) "success"); intuition congruence.
Qed.

(** ** The location index *)

Section Table.

Import locations.

Variable table : list city.


Lemma find_id_first (c : city) :
  NoDup (map (fun c => py.lower (name c)) table) -> In c table ->
  find_id (py.lower (name c)) table = Some (id c).
Proof.
  induction table as [|c0 rest IH]; simpl; intros Hnd Hin; [contradiction|].
  inversion Hnd as [|? ? Hnotin Hnd']; subst.
  destruct (String.eqb_spec (py.lower (name c0)) (py.lower (name c))) as [E|E].
  - destruct Hin as [->|Hin]; [reflexivity|].
    exfalso. apply Hnotin. apply in_map_iff. exists c. auto.
  - destruct Hin as [->|Hin]; [contradiction|]. now apply IH.
Qed.

Lemma find_name_first (c : city) :
  NoDup (map id table) -> In c table ->
  find_name (id c) table = Some (name c).
Proof.
  induction table as [|c0 rest IH]; simpl; intros Hnd Hin; [contradiction|].
  inversion Hnd as [|? ? Hnotin Hnd']; subst.
  destruct (String.eqb_spec (id c0) (id c)) as [E|E].
  - destruct Hin as [->|Hin]; [reflexivity|].
    exfalso. apply Hnotin. rewrite E. now apply in_map.
  - destruct Hin as [->|Hin]; [contradiction|]. now apply IH.
Qed.

End Table.

Ltac each_member H :=
  repeat (destruct H as [<- | H]; [vm_compute; auto|]); contradiction.

Lemma city_ids_distinct : NoDup (map locations.id locations.CITY_ID_MAP).
Proof.
  apply (NoDup_count_occ' string_dec). intros x Hx. each_member Hx.
Qed.

Lemma city_names_distinct :
  NoDup (map (fun c => py.lower (locations.name c)) locations.CITY_ID_MAP).
Proof.
  apply (NoDup_count_occ' string_dec). intros x Hx. each_member Hx.
Qed.

Lemma city_named (c : locations.city) :
  In c locations.CITY_ID_MAP ->
  py.nonempty (locations.name c) = true /\ py.nonempty (locations.id c) = true.
Proof. intros H. each_member H. Qed.

Lemma lower_nonempty (s : string) : py.nonempty (py.lower s) = py.nonempty s.
Proof. destruct s; reflexivity. Qed.

(** C9.  On every entry of the city table the two lookups are inverse:
    a name that, trimmed, is the entry's name up to case resolves to an
    identifier, and that identifier resolves back to the entry's
    canonical name. *)
Theorem city_name_of_resolved_id (c : locations.city) (input : string) :
  In c locations.CITY_ID_MAP ->
  spec.eq_ignore_case (py.strip input) (locations.name c) = true ->
  exists i,
    locations.get_city_id input = Some i
    /\ i = locations.id c
    /\ locations.get_city_name i = Some (locations.name c).
Proof.
  intros Hin Heq. destruct (city_named c Hin) as [Hname Hid].
  apply eq_ignore_case_lower in Heq. rewrite <- strip_lower in Heq.
  exists (locations.id c). split; [|split; [reflexivity|]].
  - unfold locations.get_city_id.
    destruct (py.nonempty input) eqn:E.
    + cbv [negb]. rewrite Heq.
      exact (find_id_first _ c city_names_distinct Hin).
    + apply nonempty_false in E. subst input.
      rewrite <- lower_nonempty, <- Heq in Hname. discriminate.
  - unfold locations.get_city_name. rewrite Hid. cbv [negb].
    exact (find_name_first _ c city_ids_distinct Hin).
Qed.

Lemma city_name_of_resolved_id_witness :
  exists i,
    locations.get_city_id "  dhaKA " = Some i
    /\ i = "14"
    /\ locations.get_city_name i = Some "Dhaka".
Proof.
  apply (city_name_of_resolved_id (locations.City "14" "Dhaka") "  dhaKA ").
  - vm_compute. auto.
  - vm_compute. reflexivity.
Defined.





(** ** The query builder *)





(** The endpoints of a filter set are not negative, and the encoding
    relies on it: the guard of the code asks for a positive endpoint, so
    the range -1 to 0 would be encoded as the empty text. *)
Lemma negative_endpoint_encoded_empty :
  let a := fixtures.negative_age_query in
  scraper.age_start a <> 0%Z
  /\ spec.segment (scraper.age_start a) (scraper.age_end a) = "-1/0"
  /\ scraper.build_search_url a = scraper.search_url a "" "" "" ""
  /\ scraper.build_search_url a <>
       scraper.search_url a ""
         (spec.segment (scraper.age_start a) (scraper.age_end a)) "" "".
Proof.
  cbv zeta. split; [discriminate|]. split; [reflexivity|].
  split; [reflexivity|]. vm_compute. discriminate.
Qed.



(** ** Validation of the search arguments *)

Section Rejection.

Context (lib : pydantic.library) (net : httpx.network).

Lemma invalid_arguments_checked (a : scraper.filters) (w : runtime.world) :
  spec.rejected a ->
  exists msg,
    scraper.search_jobs lib net a w = (runtime.Raise (runtime.ValueError msg), w)
    /\ In msg spec.validation_messages.
Proof.
  intros H. unfold scraper.search_jobs.
  destruct (negb (py.nonempty (scraper.keyword a))
            || negb (py.nonempty (py.strip (scraper.keyword a)))) eqn:Ek.
  { eexists. split; [reflexivity | simpl; auto]. }
  apply orb_false_iff in Ek. destruct Ek as [_ Ek].
  apply negb_false_iff in Ek.
  destruct (Z.ltb_spec (scraper.page a) 1) as [Hp|Hp].
  { eexists. split; [reflexivity | simpl; auto]. }
  destruct (Z.ltb_spec (scraper.results_per_page a) 1) as [Hr|Hr]; simpl.
  { eexists. split; [reflexivity | simpl; auto]. }
  destruct (Z.ltb_spec 100 (scraper.results_per_page a)) as [Hq|Hq].
  { eexists. split; [reflexivity | simpl; auto]. }
  exfalso. destruct H as [H|[H|[H|H]]]; try lia.
  apply strip_empty in H. rewrite H in Ek. discriminate.
Qed.

(** C3.  When the keyword is empty or blank, or the page is below 1, or
    the page size is outside 1..100, [search_jobs] raises a [ValueError]
    carrying one of the three validation messages and leaves the whole
    process state as it was: nothing was requested, nothing slept. *)
Theorem invalid_arguments_rejected (a : scraper.filters) (w : runtime.world) :
  spec.rejected a ->
  exists msg,
    scraper.search_jobs lib net a w = (runtime.Raise (runtime.ValueError msg), w)
    /\ In msg spec.validation_messages
    /\ runtime.requests (snd (scraper.search_jobs lib net a w)) = runtime.requests w.
Proof.
  intros H. destruct (invalid_arguments_checked a w H) as (msg & Hrun & Hmsg).
  exists msg. rewrite Hrun. auto.
Qed.

End Rejection.

Lemma invalid_arguments_rejected_witness :
  exists msg,
    scraper.search_jobs fixtures.strict (fixtures.always (fixtures.ok fixtures.page_body))
      (scraper.defaults "   ") fixtures.boot
    = (runtime.Raise (runtime.ValueError msg), fixtures.boot)
    /\ In msg spec.validation_messages
    /\ runtime.requests
         (snd (scraper.search_jobs fixtures.strict
                 (fixtures.always (fixtures.ok fixtures.page_body))
                 (scraper.defaults "   ") fixtures.boot))
       = runtime.requests fixtures.boot.
Proof.
  apply (invalid_arguments_rejected fixtures.strict
           (fixtures.always (fixtures.ok fixtures.page_body))
           (scraper.defaults "   ") fixtures.boot).
  left. reflexivity.
Defined.

(** ** Construction of the models *)

Section Models.

Import pydantic.

Lemma ap_valid {A B} (f : validated (A -> B)) (x : validated A) (y : B) :
  ap f x = inr y -> exists g a, f = inr g /\ x = inr a /\ y = g a.
Proof.
  destruct f as [ef|g], x as [ex|a]; simpl; intros H; try discriminate.
  injection H as <-. eauto.
Qed.

Lemma under_valid {A} (field : string) (x : validated A) (a : A) :
  under field x = inr a -> x = inr a.
Proof. destruct x; simpl; intros H; [discriminate | exact H]. Qed.

Lemma required_valid {A} field (v : py.value -> validated A) kw (a : A) :
  required field v kw = inr a ->
  exists x, py.dict_get field kw = Some x /\ v x = inr a.
Proof.
  unfold required. destruct (py.dict_get field kw) as [x|]; [|discriminate].
  intros H. apply under_valid in H. eauto.
Qed.

Lemma optional_absent {A} field (v : py.value -> validated A) default kw :
  py.dict_get field kw = None -> optional field v default kw = inr default.
Proof. unfold optional. now intros ->. Qed.

Lemma str_valid (strip_whitespace : bool) (x : py.value) (s : string) :
  str_ strip_whitespace x = inr s ->
  exists t, x = py.JString t
            /\ s = if strip_whitespace then trim t else t.
Proof.
  destruct x; simpl; try discriminate. intros H. injection H as <-. eauto.
Qed.

Lemma model_valid {A} (v : py.dict -> validated A) (x : py.value) (a : A) :
  model_ v x = inr a -> exists d, x = py.JObject d /\ v d = inr a.
Proof. destruct x; simpl; try discriminate. eauto. Qed.

End Models.

(** Take a successful construction apart, field by field. *)
Ltac fields H :=
  repeat match type of H with
         | pydantic.ap _ _ = inr _ =>
             let g := fresh "g" in
             let a := fresh "a" in
             let Hx := fresh "Hfield" in
             let Hy := fresh "Hy" in
             apply ap_valid in H; destruct H as (g & a & H & Hx & Hy);
             rewrite Hy in *; clear Hy
         end.


Section Listings.

Context (lib : pydantic.library).


End Listings.


(** C6, as stated, fails: a body that has its message and status code
    but no summary object, so that every summary count is missing, is an
    error and not a page with zero counts. *)
Lemma page_without_summary_rejected :
  models.new_SearchResults fixtures.strict
    [("message", py.JString "Success"); ("statuscode", py.JString "1")]
  = inl [pydantic.LineError ["common"] "missing"].
Proof. reflexivity. Qed.

Section Pages.

Context (lib : pydantic.library).

Lemma common_defaults (c : py.dict) (cf : models.CommonFilters) :
  models.new_CommonFilters lib c = inr cf ->
  (py.dict_get "total_records_found" c = None ->
   models.total_records_found cf = 0%Z)
  /\ (py.dict_get "totalpages" c = None -> models.totalpages cf = 0%Z)
  /\ (py.dict_get "total_vacancies" c = None ->
      models.total_vacancies cf = 0%Z).
Proof.
  intros H. unfold models.new_CommonFilters in H. fields H.
  injection H as <-. simpl.
  repeat split; intros E;
    match goal with
    | Hf : pydantic.optional ?f _ _ c = inr ?x |- ?x = _ =>
        match type of E with
        | py.dict_get f c = None =>
            rewrite (optional_absent _ _ _ _ E) in Hf; now injection Hf
        end
    end.
Qed.

Lemma common_without_counts (c : py.dict) :
  py.dict_get "total_records_found" c = None ->
  py.dict_get "totalpages" c = None ->
  py.dict_get "total_vacancies" c = None ->
  py.dict_get "showd" c = None ->
  models.new_CommonFilters lib c =
    inr {| models.total_records_found := 0; models.showd := "1";
           models.totalpages := 0; models.total_vacancies := 0 |}.
Proof.
  intros E1 E2 E3 E4. unfold models.new_CommonFilters.
  now rewrite !optional_absent by assumption.
Qed.

(** C6, amended.  A regular or premium sequence that is absent is taken
    as the empty sequence and is no error: the construction goes exactly
    as if the body carried an empty array there, and it succeeds when the
    message, the status code and the summary object are well formed.  The
    summary object itself is required; a count that is missing from it
    is zero. *)
Theorem absent_sequences_and_counts_default (kw : py.dict) :
  (py.dict_get "data" kw = None ->
   models.new_SearchResults lib kw =
     models.new_SearchResults lib (("data", py.JArray []) :: kw))
  /\ (py.dict_get "premiumData" kw = None ->
      models.new_SearchResults lib kw =
        models.new_SearchResults lib (("premiumData", py.JArray []) :: kw))
  /\ (forall m s c cf,
        py.dict_get "message" kw = Some (py.JString m) ->
        py.dict_get "statuscode" kw = Some (py.JString s) ->
        py.dict_get "common" kw = Some (py.JObject c) ->
        models.new_CommonFilters lib c = inr cf ->
        py.dict_get "data" kw = None ->
        py.dict_get "premiumData" kw = None ->
        models.new_SearchResults lib kw =
          inr {| models.message := m; models.statuscode := s;
                 models.data := []; models.premiumData := [];
                 models.common := cf |})
  /\ (forall page,
        models.new_SearchResults lib kw = inr page ->
        (py.dict_get "data" kw = None -> models.data page = [])
        /\ (py.dict_get "premiumData" kw = None ->
            models.premiumData page = [])
        /\ exists c,
             py.dict_get "common" kw = Some (py.JObject c)
             /\ (py.dict_get "total_records_found" c = None ->
                 models.total_records_found (models.common page) = 0%Z)
             /\ (py.dict_get "totalpages" c = None ->
                 models.totalpages (models.common page) = 0%Z)
             /\ (py.dict_get "total_vacancies" c = None ->
                 models.total_vacancies (models.common page) = 0%Z))
  /\ (py.dict_get "common" kw = None ->
      exists errors, models.new_SearchResults lib kw = inl errors).
Proof.
  split; [|split; [|split; [|split]]].
  - intros E. unfold models.new_SearchResults, pydantic.required.
    rewrite (optional_absent _ _ _ _ E). reflexivity.
  - intros E. unfold models.new_SearchResults, pydantic.required.
    rewrite (optional_absent _ _ _ _ E). reflexivity.
  - intros m s c cf Em Es Ec Ecf Ed Ep.
    unfold models.new_SearchResults, pydantic.required.
    rewrite !optional_absent by assumption.
    rewrite Em, Es, Ec. simpl. rewrite Ecf. reflexivity.
  - intros page H. unfold models.new_SearchResults in H. fields H.
    injection H as <-. simpl.
    split; [|split].
    + intros E.
      match goal with
      | Hf : pydantic.optional "data" _ _ kw = inr _ |- _ =>
          rewrite (optional_absent _ _ _ _ E) in Hf; now injection Hf
      end.
    + intros E.
      match goal with
      | Hf : pydantic.optional "premiumData" _ _ kw = inr _ |- _ =>
          rewrite (optional_absent _ _ _ _ E) in Hf; now injection Hf
      end.
    + match goal with
      | Hf : pydantic.required "common" _ kw = inr _ |- _ =>
          apply required_valid in Hf; destruct Hf as (x & Hget & Hm);
          apply model_valid in Hm; destruct Hm as (c & -> & Hc)
      end.
      exists c. split; [exact Hget|]. exact (common_defaults c _ Hc).
  - intros E. unfold models.new_SearchResults.
    unfold pydantic.required. rewrite E.
    match goal with
    | |- exists _, pydantic.ap ?f _ = _ => destruct f; simpl; eauto
    end.
Qed.

End Pages.

Lemma absent_sequences_and_counts_default_witness :
  models.new_SearchResults fixtures.strict
    [("message", py.JString "Success"); ("statuscode", py.JString "1");
     ("common", py.JObject [("totalpages", py.JInt 8)])]
  = inr {| models.message := "Success"; models.statuscode := "1";
           models.data := []; models.premiumData := [];
           models.common :=
             {| models.total_records_found := 0; models.showd := "1";
                models.totalpages := 8; models.total_vacancies := 0 |} |}.
Proof.
  eapply (absent_sequences_and_counts_default fixtures.strict); reflexivity.
Defined.

(** ** The transport *)

(** Close a goal that asks for the final state of a run that has been
    computed. *)
Ltac ran := eexists; split; reflexivity.

Section Transport.

Import runtime.

Context (lib : pydantic.library) (net : httpx.network).

Lemma rate_limit_run (w : world) :
  exists w', http_client.rate_limit w = (Return tt, w')
             /\ requests w' = requests w.
Proof.
  unfold http_client.rate_limit, bind, time, http_client.get_last_request_time,
    http_client.set_last_request_time.
  destruct (Qltb _ _); simpl; eauto.
Qed.

Lemma get_http_client_run (w : world) :
  exists w', http_client.get_http_client w = (Return tt, w')
             /\ requests w' = requests w.
Proof.
  unfold http_client.get_http_client. destruct (client_open w); simpl; eauto.
Qed.

Lemma api_error_class (body : py.value) (e : exn) :
  http_client.api_error lib body = Some e -> exists msg, e = RuntimeError msg.
Proof.
  unfold http_client.api_error.
  destruct body as [| | | | | |d]; try discriminate.
  destruct (py.dict_get "statuscode" d) as [sc|]; [|discriminate].
  destruct (py.truthy sc && py.differs_from_str sc "1"); [|discriminate].
  intros H. injection H as <-. eauto.
Qed.

(** One attempt sends one request and answers by the contract. *)
Lemma api_get_once_run (url : string) (w : world) :
  exists w',
    http_client.api_get_once lib net url w
    = (outline.reply lib (net (List.length (requests w)) url), w')
    /\ requests w' = (requests w ++ [url])%list.
Proof.
  unfold http_client.api_get_once. unfold bind at 1.
  destruct (rate_limit_run w) as (w1 & -> & E1).
  unfold bind at 1.
  destruct (get_http_client_run w1) as (w2 & -> & E2).
  unfold try_except, bind, httpx.get. rewrite E2, E1.
  destruct (net (List.length (requests w)) url) as [| |r]; simpl;
    [ran | ran |].
  unfold httpx.raise_for_status.
  destruct (httpx.is_success r); simpl; [|ran].
  destruct (httpx.json r) as [text|body]; simpl; [ran|].
  destruct (http_client.api_error lib body) as [e|] eqn:Ee; simpl; [|ran].
  destruct (api_error_class body e Ee) as (msg & ->). simpl. ran.
Qed.

Lemma undelivered_retried (x : httpx.exchange) :
  spec.undelivered x <->
  exists e, outline.reply lib x = Raise e /\ is_HTTPError e = true.
Proof.
  destruct x as [| |r]; simpl.
  - split; [eauto | trivial].
  - split; [eauto | trivial].
  - destruct (httpx.is_success r).
    + split; [discriminate|]. intros (e & H & He).
      destruct (httpx.json r) as [text|body].
      * injection H as <-. discriminate.
      * destruct (http_client.api_error lib body) as [e'|] eqn:Ee;
          [|discriminate].
        destruct (api_error_class body e' Ee) as (msg & ->).
        injection H as <-. discriminate.
    + split; [eauto | trivial].
Qed.

(** The retry loop, started with [left] further attempts allowed, stops
    at the first exchange that delivered something or at the last allowed
    one, answers by the contract for that exchange, and has sent one
    request per attempt. *)
Lemma attempts_run (wait : nat -> Q) (url : string) (left : nat) :
  forall (attempt_number : nat) (w : world),
  exists i w',
    i <= left
    /\ tenacity.attempts is_HTTPError wait left attempt_number
         (http_client.api_get_once lib net url) w
       = (outline.reply lib (net (List.length (requests w) + i) url), w')
    /\ requests w' = (requests w ++ repeat url (S i))%list
    /\ (forall j, j < i ->
          spec.undelivered (net (List.length (requests w) + j) url))
    /\ (i < left ->
        ~ spec.undelivered (net (List.length (requests w) + i) url)).
Proof.
  induction left as [|left IH]; intros attempt_number w;
    destruct (api_get_once_run url w) as (w1 & Hrun & Hreq).
  - exists 0, w1. rewrite Nat.add_0_r. simpl. unfold try_except. rewrite Hrun.
    split; [lia|]. split.
    + destruct (outline.reply lib _) as [v|e]; [reflexivity|].
      destruct (is_HTTPError e); reflexivity.
    + split; [exact Hreq|]. split; intros; lia.
  - simpl. unfold try_except. rewrite Hrun.
    destruct (outline.reply lib (net (List.length (requests w)) url))
      as [v|e] eqn:Hreply.
    + exists 0, w1. rewrite Nat.add_0_r, Hreply.
      split; [lia|]. split; [reflexivity|]. split; [exact Hreq|].
      split; [intros; lia|]. intros _ Hu.
      apply undelivered_retried in Hu. destruct Hu as (e & He & _).
      congruence.
    + destruct (is_HTTPError e) eqn:Hhttp.
      * unfold bind, sleep.
        match goal with
        | |- context [tenacity.attempts _ _ left ?n ?f ?w2] =>
            destruct (IH n w2) as (i & w' & Hi & Hrun' & Hreq' & Hbefore & Hlast)
        end.
        simpl requests in *. rewrite Hreq in *.
        rewrite length_app in *. simpl List.length in *.
        exists (S i), w'.
        replace (List.length (requests w) + S i)
          with (List.length (requests w) + 1 + i) by lia.
        split; [lia|]. split; [exact Hrun'|]. split.
        { rewrite Hreq', <- app_assoc. reflexivity. }
        split.
        { intros [|j] Hj.
          - rewrite Nat.add_0_r. apply undelivered_retried. eauto.
          - replace (List.length (requests w) + S j)
              with (List.length (requests w) + 1 + j) by lia.
            apply Hbefore. lia. }
        { intros Hlt. apply Hlast. lia. }
      * exists 0, w1. rewrite Nat.add_0_r, Hreply.
        split; [lia|]. split; [reflexivity|]. split; [exact Hreq|].
        split; [intros; lia|]. intros _ Hu.
        apply undelivered_retried in Hu. destruct Hu as (e' & He & He').
        congruence.
Qed.

(** The decorated [api_get]. *)
Lemma api_get_run (url : string) (w : world) :
  exists i w',
    i < config.MAX_RETRIES
    /\ http_client.api_get lib net url w
       = (outline.reply lib (net (List.length (requests w) + i) url), w')
    /\ requests w' = (requests w ++ repeat url (S i))%list
    /\ (forall j, j < i ->
          spec.undelivered (net (List.length (requests w) + j) url))
    /\ (S i < config.MAX_RETRIES ->
        ~ spec.undelivered (net (List.length (requests w) + i) url)).
Proof.
  unfold http_client.api_get, tenacity.retry.
  destruct (attempts_run
              (tenacity.wait_exponential config.RETRY_MIN_WAIT config.RETRY_MAX_WAIT)
              url (config.MAX_RETRIES - 1) 1 w)
    as (i & w' & Hi & Hrun & Hreq & Hbefore & Hlast).
  exists i, w'. unfold config.MAX_RETRIES in *. simpl in Hi, Hlast.
  split; [lia|]. split; [exact Hrun|]. split; [exact Hreq|].
  split; [exact Hbefore|]. intros H. apply Hlast. lia.
Qed.

Lemma api_error_signals (body : py.value) :
  (exists msg, http_client.api_error lib body = Some (RuntimeError msg))
  <-> spec.signals_api_error body.
Proof.
  unfold http_client.api_error, spec.signals_api_error. split.
  - intros (msg & H). destruct body as [| | | | | |d]; try discriminate.
    destruct (py.dict_get "statuscode" d) as [sc|] eqn:Esc; [|discriminate].
    destruct (py.truthy sc && py.differs_from_str sc "1") eqn:E; [|discriminate].
    apply andb_true_iff in E. destruct E as [Et Ed].
    exists d, sc. repeat split; auto.
    intros ->. simpl in Ed. discriminate.
  - intros (d & sc & -> & Esc & Et & Hne). rewrite Esc, Et. simpl.
    replace (py.differs_from_str sc "1") with true; [eauto|].
    destruct sc; try reflexivity. simpl.
    destruct (String.eqb_spec s "1") as [->|]; [contradiction | reflexivity].
Qed.

Lemma api_error_silent (body : py.value) :
  http_client.api_error lib body = None <-> ~ spec.signals_api_error body.
Proof.
  rewrite <- api_error_signals. split.
  - intros -> (msg & H). discriminate.
  - intros H. destruct (http_client.api_error lib body) as [e|] eqn:E;
      [|reflexivity].
    exfalso. apply H.
    destruct (api_error_class body e E) as (msg & ->). eauto.
Qed.

Lemma transient_undelivered (x : httpx.exchange) :
  spec.transient x = true -> spec.undelivered x.
Proof. destruct x; simpl; [trivial | trivial | discriminate]. Qed.

Lemma transient_reply (x : httpx.exchange) :
  spec.transient x = true -> outline.reply lib x = Raise (spec.failure x).
Proof. destruct x; simpl; [reflexivity | reflexivity | discriminate]. Qed.

Lemma arrived_not_undelivered (x : httpx.exchange) (r : httpx.response) :
  x = httpx.Arrives r -> httpx.is_success r = true -> ~ spec.undelivered x.
Proof. intros -> H. simpl. rewrite H. discriminate. Qed.

(** C4.  Time-outs and network errors are retried, an API-level error or
    a body that is not JSON is not.  When the first [k - 1] attempts of a
    call fail transiently ([k] within the [MAX_RETRIES] allowed
    attempts): a response arriving at attempt [k] settles the call after
    exactly [k] requests, as a [ValueError] when its body is not JSON, as
    a [RuntimeError] when the body signals an API error, and as the
    decoded body otherwise; and when [k] is the last allowed attempt and
    it fails transiently as well, that very failure is raised after
    exactly [MAX_RETRIES] requests. *)
Theorem transient_failures_retried (url : string) (w : world) (k : nat) :
  1 <= k <= config.MAX_RETRIES ->
  (forall j, j < k - 1 ->
     spec.transient (net (List.length (requests w) + j) url) = true) ->
  (forall r,
     net (List.length (requests w) + (k - 1)) url = httpx.Arrives r ->
     httpx.is_success r = true ->
     exists res w',
       http_client.api_get lib net url w = (res, w')
       /\ requests w' = (requests w ++ repeat url k)%list
       /\ (forall text, httpx.json r = inl text ->
             res = Raise (ValueError ("API returned invalid JSON: " ++ text)))
       /\ (forall body, httpx.json r = inr body ->
             spec.signals_api_error body ->
             exists msg, res = Raise (RuntimeError msg))
       /\ (forall body, httpx.json r = inr body ->
             ~ spec.signals_api_error body ->
             res = Return body))
  /\ (k = config.MAX_RETRIES ->
      spec.transient (net (List.length (requests w) + (k - 1)) url) = true ->
      exists w',
        http_client.api_get lib net url w
        = (Raise (spec.failure (net (List.length (requests w) + (k - 1)) url)), w')
        /\ requests w' = (requests w ++ repeat url config.MAX_RETRIES)%list).
Proof.
  intros Hk Hfirst.
  destruct (api_get_run url w) as (i & w' & Hi & Hrun & Hreq & Hbefore & Hlast).
  assert (Hge : k - 1 <= i).
  { destruct (Nat.le_gt_cases (k - 1) i) as [H|H]; [exact H|].
    exfalso. apply Hlast; [lia|].
    apply transient_undelivered, Hfirst. exact H. }
  split.
  - intros r Hr Hok.
    assert (Hik : i = k - 1).
    { destruct (Nat.eq_dec i (k - 1)) as [E|E]; [exact E|].
      exfalso. apply (arrived_not_undelivered _ r Hr Hok).
      apply Hbefore. lia. }
    subst i. replace (S (k - 1)) with k in Hreq by lia.
    rewrite Hr in Hrun. simpl in Hrun. rewrite Hok in Hrun.
    eexists. exists w'. split; [exact Hrun|]. split; [exact Hreq|].
    split; [|split].
    + intros text ->. reflexivity.
    + intros body -> Hs. apply api_error_signals in Hs.
      destruct Hs as (msg & ->). eauto.
    + intros body -> Hs. apply api_error_silent in Hs. rewrite Hs. reflexivity.
  - intros -> Htr.
    assert (Hik : i = config.MAX_RETRIES - 1) by lia.
    subst i. rewrite (transient_reply _ Htr) in Hrun.
    exists w'. split; [exact Hrun|]. exact Hreq.
Qed.

End Transport.

Lemma transient_failures_retried_witness :
  let net := fixtures.scripted
               [httpx.TimesOut; httpx.Fails; fixtures.ok fixtures.page_body] in
  let stuck := fixtures.always httpx.TimesOut in
  (exists w',
     http_client.api_get fixtures.strict net "u" fixtures.boot
     = (runtime.Return fixtures.page_body, w')
     /\ runtime.requests w' = ["u"; "u"; "u"])
  /\ (exists w',
        http_client.api_get fixtures.strict stuck "u" fixtures.boot
        = (runtime.Raise runtime.TimeoutException, w')
        /\ runtime.requests w' = ["u"; "u"; "u"]).
Proof.
  cbv zeta. split.
  - destruct (transient_failures_retried fixtures.strict
                (fixtures.scripted
                   [httpx.TimesOut; httpx.Fails; fixtures.ok fixtures.page_body])
                "u" fixtures.boot 3) as [H _].
    + unfold config.MAX_RETRIES. lia.
    + intros [|[|j]] Hj; [reflexivity | reflexivity | simpl in Hj; lia].
    + destruct (H _ eq_refl eq_refl) as (res & w' & Hrun & Hreq & _ & _ & Hbody).
      exists w'. split; [|exact Hreq].
      rewrite Hrun. f_equal. apply (Hbody _ eq_refl).
      intros (d & sc & Hd & Hsc & _ & Hne). injection Hd as <-.
      injection Hsc as <-. apply Hne. reflexivity.
  - destruct (transient_failures_retried fixtures.strict
                (fixtures.always httpx.TimesOut) "u" fixtures.boot 3) as [_ H].
    + unfold config.MAX_RETRIES. lia.
    + intros j _. reflexivity.
    + exact (H eq_refl eq_refl).
Defined.

(** ** The search *)

Section Search.

Import runtime.

Context (lib : pydantic.library) (net : httpx.network).

Lemma api_get_first_arrival (url : string) (w : world) (r : httpx.response) :
  net (List.length (requests w)) url = httpx.Arrives r ->
  httpx.is_success r = true ->
  exists w',
    http_client.api_get lib net url w = (outline.reply lib (httpx.Arrives r), w')
    /\ requests w' = (requests w ++ [url])%list.
Proof.
  intros Hr Hok.
  destruct (api_get_run lib net url w)
    as (i & w' & Hi & Hrun & Hreq & Hbefore & Hlast).
  destruct i as [|i].
  - rewrite Nat.add_0_r, Hr in Hrun. eauto.
  - exfalso. apply (arrived_not_undelivered _ r Hr Hok).
    rewrite <- (Nat.add_0_r (List.length (requests w))). apply Hbefore. lia.
Qed.

Lemma rejected_dec (a : scraper.filters) :
  {spec.rejected a} + {~ spec.rejected a}.
Proof.
  unfold spec.rejected.
  destruct (spec.blank (scraper.keyword a)); [left; auto|].
  destruct (Z_lt_dec (scraper.page a) 1); [left; auto|].
  destruct (Z_lt_dec (scraper.results_per_page a) 1); [left; auto|].
  destruct (Z_lt_dec 100 (scraper.results_per_page a)); [left; auto|].
  right. intros [H|[H|[H|H]]]; auto. discriminate.
Qed.

Lemma search_jobs_accepted (a : scraper.filters) (w : world) :
  ~ spec.rejected a ->
  scraper.search_jobs lib net a w =
    match http_client.api_get lib net (scraper.build_search_url a) w with
    | (Return body, w') => (outline.parsed lib body, w')
    | (Raise e, w') => (Raise e, w')
    end.
Proof.
  intros Hacc. unfold scraper.search_jobs.
  assert (Hk : py.nonempty (py.strip (scraper.keyword a)) = true).
  { destruct (py.nonempty (py.strip (scraper.keyword a))) eqn:E; [reflexivity|].
    exfalso. apply Hacc. left. apply strip_empty. now apply nonempty_false. }
  assert (Hk' : py.nonempty (scraper.keyword a) = true).
  { destruct (scraper.keyword a); [discriminate Hk | reflexivity]. }
  rewrite Hk, Hk'. simpl.
  destruct (Z.ltb_spec (scraper.page a) 1) as [H|_];
    [exfalso; apply Hacc; right; left; exact H|].
  destruct (Z.ltb_spec (scraper.results_per_page a) 1) as [H|_];
    [exfalso; apply Hacc; right; right; left; exact H|].
  destruct (Z.ltb_spec 100 (scraper.results_per_page a)) as [H|_];
    [exfalso; apply Hacc; right; right; right; exact H|].
  simpl. unfold try_except, bind.
  destruct (http_client.api_get lib net (scraper.build_search_url a) w)
    as [[body|e] w']; [|reflexivity].
  unfold scraper.SearchResults_of, outline.parsed.
  destruct body; try reflexivity.
  destruct (models.new_SearchResults lib items); reflexivity.
Qed.

Lemma page_statuscode (kw : py.dict) (page : models.SearchResults) (s : string) :
  models.new_SearchResults lib kw = inr page ->
  py.dict_get "statuscode" kw = Some (py.JString s) ->
  models.statuscode page = s.
Proof.
  intros H Hs. unfold models.new_SearchResults in H. fields H.
  injection H as <-. simpl.
  match goal with
  | Hf : pydantic.required "statuscode" _ kw = inr _ |- _ =>
      apply required_valid in Hf; destruct Hf as (x & Hget & Hstr)
  end.
  rewrite Hs in Hget. injection Hget as <-.
  apply str_valid in Hstr. destruct Hstr as (t & Ht & ->).
  now injection Ht as <-.
Qed.

(** C10.  The transport raises its API error exactly for a body that is
    a dictionary with a status code that is present, truthy and not
    ["1"].  A body that is no dictionary, or has no status code, or has
    the empty string as status code therefore passes: [api_get] returns
    it after a single request, and when it has the shape of a page,
    [search_jobs] returns that page, whose [is_success] is false for an
    empty status code. *)
Theorem empty_status_reaches_caller :
  (forall body,
     (exists msg, http_client.api_error lib body = Some (RuntimeError msg))
     <-> spec.signals_api_error body)
  /\ (forall body,
        http_client.api_error lib body = None
        <-> ~ spec.signals_api_error body)
  /\ (forall body,
        (forall d, body <> py.JObject d)
        \/ (exists d, body = py.JObject d
                      /\ (py.dict_get "statuscode" d = None
                          \/ py.dict_get "statuscode" d = Some (py.JString ""))) ->
        ~ spec.signals_api_error body)
  /\ (forall url w r body,
        net (List.length (requests w)) url = httpx.Arrives r ->
        httpx.is_success r = true ->
        httpx.json r = inr body ->
        ~ spec.signals_api_error body ->
        exists w',
          http_client.api_get lib net url w = (Return body, w')
          /\ requests w' = (requests w ++ [url])%list)
  /\ (forall a w r kw page,
        ~ spec.rejected a ->
        net (List.length (requests w)) (scraper.build_search_url a)
          = httpx.Arrives r ->
        httpx.is_success r = true ->
        httpx.json r = inr (py.JObject kw) ->
        py.dict_get "statuscode" kw = Some (py.JString "") ->
        models.new_SearchResults lib kw = inr page ->
        exists w',
          scraper.search_jobs lib net a w = (Return page, w')
          /\ models.is_success page = false).
Proof.
  assert (Hquiet : forall body,
        (forall d, body <> py.JObject d)
        \/ (exists d, body = py.JObject d
                      /\ (py.dict_get "statuscode" d = None
                          \/ py.dict_get "statuscode" d = Some (py.JString ""))) ->
        ~ spec.signals_api_error body).
  { intros body H (d & sc & -> & Hsc & Ht & _).
    destruct H as [H|(d' & Hd & [H|H])].
    - now apply (H d).
    - injection Hd as <-. congruence.
    - injection Hd as <-. rewrite H in Hsc. injection Hsc as <-. discriminate. }
  assert (Hget : forall url w r body,
        net (List.length (requests w)) url = httpx.Arrives r ->
        httpx.is_success r = true ->
        httpx.json r = inr body ->
        ~ spec.signals_api_error body ->
        exists w',
          http_client.api_get lib net url w = (Return body, w')
          /\ requests w' = (requests w ++ [url])%list).
  { intros url w r body Hr Hok Hjson Hs.
    destruct (api_get_first_arrival url w r Hr Hok) as (w' & Hrun & Hreq).
    exists w'. split; [|exact Hreq]. rewrite Hrun. simpl.
    rewrite Hok, Hjson.
    apply (proj2 (api_error_silent lib body)) in Hs. now rewrite Hs. }
  split; [exact (api_error_signals lib)|].
  split; [exact (api_error_silent lib)|].
  split; [exact Hquiet|]. split; [exact Hget|].
  intros a w r kw page Hacc Hr Hok Hjson Hsc Hpage.
  destruct (Hget _ w r _ Hr Hok Hjson) as (w' & Hrun & _).
  { apply Hquiet. right. eauto. }
  exists w'. split.
  - rewrite (search_jobs_accepted a w Hacc), Hrun. simpl. now rewrite Hpage.
  - unfold models.is_success. now rewrite (page_statuscode kw page "" Hpage Hsc).
Qed.

End Search.

Lemma empty_status_reaches_caller_witness :
  let body :=
    py.JObject [("message", py.JString "No jobs"); ("statuscode", py.JString "");
                ("common", py.JObject [])] in
  exists page w',
    scraper.search_jobs fixtures.strict (fixtures.always (fixtures.ok body))
      fixtures.dhaka_query fixtures.boot = (runtime.Return page, w')
    /\ models.statuscode page = ""
    /\ models.is_success page = false.
Proof.
  cbv zeta.
  destruct (empty_status_reaches_caller fixtures.strict
              (fixtures.always
                 (fixtures.ok
                    (py.JObject [("message", py.JString "No jobs");
                                 ("statuscode", py.JString "");
                                 ("common", py.JObject [])]))))
    as (_ & _ & _ & _ & H).
  edestruct (H fixtures.dhaka_query fixtures.boot) as (w' & Hrun & Hs).
  - intros [Hb|[Hp|[Hp|Hp]]]; [discriminate Hb | | |]; vm_compute in Hp;
      discriminate Hp.
  - reflexivity.
  - reflexivity.
  - reflexivity.
  - reflexivity.
  - reflexivity.
  - eexists. exists w'. split; [exact Hrun|]. split; [reflexivity | exact Hs].
Defined.

(** ** The kinds of error *)

Section Kinds.

Import runtime.

Context (lib : pydantic.library) (net : httpx.network).

Lemma settles_once (url : string) (first i i' : nat) (r r' : httpx.response) :
  spec.settles net url first i r -> spec.settles net url first i' r' ->
  i = i' /\ r = r'.
Proof.
  intros (Hi & Hb & Hr & Hok) (Hi' & Hb' & Hr' & Hok').
  assert (E : i = i').
  { destruct (Nat.lt_total i i') as [H|[H|H]]; [|exact H|]; exfalso.
    - apply (arrived_not_undelivered _ r Hr Hok). now apply Hb'.
    - apply (arrived_not_undelivered _ r' Hr' Hok'). now apply Hb. }
  subst i'. split; [reflexivity|]. congruence.
Qed.

Lemma settles_delivers (url : string) (first i : nat) (r : httpx.response) :
  spec.settles net url first i r ->
  ~ (forall j, j < config.MAX_RETRIES -> spec.undelivered (net (first + j) url)).
Proof.
  intros (Hi & _ & Hr & Hok) H.
  exact (arrived_not_undelivered _ r Hr Hok (H i Hi)).
Qed.

Lemma causes_exclusive (a : scraper.filters) (first : nat)
    (k k' : spec.error_kind) :
  spec.caused lib net a first k -> spec.caused lib net a first k' -> k = k'.
Proof.
  destruct k, k'; simpl; try reflexivity; intros H H'; exfalso;
    repeat match goal with
      | H : _ /\ _ |- _ => destruct H
      | H : exists _, _ |- _ => destruct H
      | H : _ \/ _ |- _ => destruct H
      end;
    try contradiction;
    try (eapply settles_delivers; eassumption);
    match goal with
    | H1 : spec.settles _ _ _ _ ?r1, H2 : spec.settles _ _ _ _ ?r2 |- _ =>
        destruct (settles_once _ _ _ _ _ _ H1 H2) as [_ <-]
    end; congruence.
Qed.

Lemma delivered_not_caused (a : scraper.filters) (first : nat)
    (page : models.SearchResults) (k : spec.error_kind) :
  spec.delivered lib net a first page -> ~ spec.caused lib net a first k.
Proof.
  intros (Hacc & i & r & kw & Hs & Hjson & Hquiet & Hpage).
  destruct k; simpl; intros H;
    repeat match goal with
      | H : _ /\ _ |- _ => destruct H
      | H : exists _, _ |- _ => destruct H
      | H : _ \/ _ |- _ => destruct H
      end;
    try contradiction;
    try (eapply settles_delivers; eassumption);
    match goal with
    | H2 : spec.settles _ _ _ ?j ?r2 |- _ =>
        destruct (settles_once _ _ _ _ _ _ Hs H2) as [_ <-]
    end; try congruence.
  match goal with
  | Hb : httpx.json r = inr ?b, Hn : forall kw page, ?b = _ -> _ |- _ =>
      rewrite Hjson in Hb; injection Hb as <-; exact (Hn kw page eq_refl Hpage)
  end.
Qed.

(** C5.  Whatever [search_jobs] does shows what happened.  An exception
    it raises tells its kind to the caller (by its class and, for a
    [ValueError], by its message), and that kind is the true cause:
    rejected arguments, a transport that delivered nothing in all allowed
    attempts, a body that signals an API error, or a body that is not
    JSON or has not the shape of a page.  A page is returned only when
    none of these occurred.  Conversely every one of the four causes
    surfaces as an exception of its own kind, and no two causes
    coincide. *)
Theorem every_failure_shows_its_kind (a : scraper.filters) (w : world) :
  (match fst (scraper.search_jobs lib net a w) with
   | Raise e =>
       spec.caused lib net a (List.length (requests w)) (spec.kind_of e)
   | Return page =>
       spec.delivered lib net a (List.length (requests w)) page
   end)
  /\ (forall k,
        spec.caused lib net a (List.length (requests w)) k ->
        exists e,
          fst (scraper.search_jobs lib net a w) = Raise e
          /\ spec.kind_of e = k)
  /\ (forall k k',
        spec.caused lib net a (List.length (requests w)) k ->
        spec.caused lib net a (List.length (requests w)) k' ->
        k = k').
Proof.
  assert (Hsound :
    match fst (scraper.search_jobs lib net a w) with
    | Raise e =>
        spec.caused lib net a (List.length (requests w)) (spec.kind_of e)
    | Return page =>
        spec.delivered lib net a (List.length (requests w)) page
    end).
  { destruct (rejected_dec a) as [Hrej|Hacc].
    - destruct (invalid_arguments_checked lib net a w Hrej) as (msg & -> & Hmsg).
      simpl fst. cbv iota.
      destruct Hmsg as [<-|[<-|[<-|[]]]]; exact Hrej.
    - rewrite (search_jobs_accepted lib net a w Hacc).
      destruct (api_get_run lib net (scraper.build_search_url a) w)
        as (i & w' & Hi & -> & _ & Hbefore & Hlast).
      set (first := List.length (requests w)) in *.
      set (url := scraper.build_search_url a) in *.
      assert (Hall : spec.undelivered (net (first + i) url) ->
                     forall j, j < config.MAX_RETRIES ->
                               spec.undelivered (net (first + j) url)).
      { intros Hu j Hj.
        destruct (Nat.eq_dec j i) as [->|Hne]; [exact Hu|].
        apply Hbefore.
        destruct (Nat.lt_ge_cases (S i) config.MAX_RETRIES) as [H|H];
          [contradiction (Hlast H Hu) | lia]. }
      destruct (net (first + i) url) as [| |r] eqn:Hx; simpl.
      + split; [exact Hacc|]. now apply Hall.
      + split; [exact Hacc|]. now apply Hall.
      + destruct (httpx.is_success r) eqn:Hok; simpl.
        * assert (Hs : spec.settles net url first i r)
            by (repeat split; assumption).
          destruct (httpx.json r) as [text|body] eqn:Hjson; simpl.
          { split; [exact Hacc|]. exists i, r. split; [exact Hs|]. eauto. }
          destruct (http_client.api_error lib body) as [e|] eqn:Herr; simpl.
          { destruct (api_error_class lib body e Herr) as (msg & ->). simpl.
            split; [exact Hacc|]. exists i, r, body.
            split; [exact Hs|]. split; [exact Hjson|].
            apply (api_error_signals lib). eauto. }
          apply (api_error_silent lib) in Herr.
          unfold outline.parsed.
          destruct body as [| | | | | |kw];
            try (simpl; split; [exact Hacc|]; exists i, r; split; [exact Hs|];
                 right; eexists; split; [exact Hjson|]; split; [exact Herr|];
                 intros kw page Hkw; discriminate Hkw).
          destruct (models.new_SearchResults lib kw) as [errors|page] eqn:Hpage;
            simpl.
          { split; [exact Hacc|]. exists i, r. split; [exact Hs|].
            right. eexists. split; [exact Hjson|]. split; [exact Herr|].
            intros kw' page Hkw. injection Hkw as <-. congruence. }
          { split; [exact Hacc|]. exists i, r, kw. auto. }
        * split; [exact Hacc|]. apply Hall. exact Hok. }
  split; [exact Hsound|]. split.
  - intros k Hk.
    destruct (fst (scraper.search_jobs lib net a w)) as [page|e].
    + contradiction (delivered_not_caused a _ page k Hsound Hk).
    + exists e. split; [reflexivity|].
      exact (causes_exclusive a _ _ _ Hsound Hk).
  - intros k k'. apply causes_exclusive.
Qed.

End Kinds.

Lemma every_failure_shows_its_kind_witness :
  let refused :=
    py.JObject [("message", py.JString "Invalid request");
                ("statuscode", py.JString "0")] in
  (exists e,
     fst (scraper.search_jobs fixtures.strict (fixtures.always httpx.TimesOut)
            (scraper.defaults "  ") fixtures.boot) = runtime.Raise e
     /\ spec.kind_of e = spec.Validation)
  /\ (exists e,
        fst (scraper.search_jobs fixtures.strict
               (fixtures.always (fixtures.ok refused))
               fixtures.dhaka_query fixtures.boot) = runtime.Raise e
        /\ spec.kind_of e = spec.API).
Proof.
  cbv zeta. split.
  - apply (every_failure_shows_its_kind fixtures.strict
             (fixtures.always httpx.TimesOut) (scraper.defaults "  ")
             fixtures.boot).
    left. reflexivity.
  - apply (every_failure_shows_its_kind fixtures.strict
             (fixtures.always
                (fixtures.ok
                   (py.JObject [("message", py.JString "Invalid request");
                                ("statuscode", py.JString "0")])))
             fixtures.dhaka_query fixtures.boot).
    split.
    + intros [Hb|[Hp|[Hp|Hp]]]; [discriminate Hb | | |]; vm_compute in Hp;
        discriminate Hp.
    + exists 0. eexists. eexists. split.
      * split; [unfold config.MAX_RETRIES; lia|].
        split; [intros j Hj; lia|]. split; reflexivity.
      * split; [reflexivity|].
        eexists. eexists. split; [reflexivity|]. split; [reflexivity|].
        split; [reflexivity | discriminate].
Defined.

(** ** The scenario of the design document

    A search for "software engineer" in Dhaka, five results per page,
    answered at once with two regular listings and a premium one. *)

Example dhaka_scenario :
  exists page w',
    scraper.search_jobs fixtures.strict
      (fixtures.always (fixtures.ok fixtures.page_body))
      fixtures.dhaka_query fixtures.boot = (runtime.Return page, w')
    /\ List.length (models.all_jobs page) = 3
    /\ models.total_records_found (models.common page) = 37%Z
    /\ models.is_success page = true
    /\ map models.get_job_url (firstn 1 (models.all_jobs page))
       = ["https://bdjobs.com/jobs/details/101"]
    /\ List.length (runtime.requests w') = 1.
Proof. do 2 eexists. vm_compute. repeat split. Qed.

(** * Further properties of the code *)

(** ** Substrings *)

Lemma prefix_splits (a s : string) :
  String.prefix a s = true <-> exists r, s = a ++ r.
Proof.
  revert s. induction a as [|c a IH]; intros [|d s]; simpl;
    try (split; [eauto | reflexivity]).
  - split; [discriminate | intros (r & H); discriminate].
  - destruct (ascii_dec c d) as [->|Hne].
    + rewrite IH. split; intros (r & H); exists r; congruence.
    + split; [discriminate|]. intros (r & H). congruence.
Qed.

(** [sub in s] says that [s] is some text, then [sub], then some text. *)
Lemma contains_splits (sub s : string) :
  py.contains sub s = true <-> exists before after, s = before ++ sub ++ after.
Proof.
  induction s as [|c s IH].
  - cbn [py.contains]. rewrite orb_false_r, prefix_splits. split.
    + intros (r & H). exists "", r. exact H.
    + intros (b & a & H). destruct b; [eauto | discriminate].
  - cbn [py.contains]. rewrite orb_true_iff, prefix_splits, IH. split.
    + intros [(r & H)|(b & a & H)].
      * exists "", r. exact H.
      * exists (String c b), a. simpl. now rewrite H.
    + intros (b & a & H). destruct b as [|d b]; simpl in H.
      * left. eauto.
      * right. injection H as -> ->. eauto.
Qed.

Lemma append_assoc (a b c : string) : (a ++ b) ++ c = a ++ b ++ c.
Proof. induction a; simpl; congruence. Qed.

Lemma contains_refl (s : string) : py.contains s s = true.
Proof.
  apply contains_splits. exists "", "". simpl.
  induction s; simpl; congruence.
Qed.

Lemma contains_empty (s : string) : py.contains "" s = true.
Proof. apply contains_splits. exists "", s. reflexivity. Qed.

Lemma contains_trans (a b c : string) :
  py.contains a b = true -> py.contains b c = true -> py.contains a c = true.
Proof.
  rewrite !contains_splits. intros (p & q & ->) (p' & q' & ->).
  exists (p' ++ p), (q ++ q'). now rewrite !append_assoc.
Qed.

(** ** More on the location index *)

Lemma find_id_some (wanted : string) (table : list locations.city) (i : string) :
  locations.find_id wanted table = Some i ->
  exists c, In c table /\ py.lower (locations.name c) = wanted
            /\ locations.id c = i.
Proof.
  induction table as [|c rest IH]; simpl; [discriminate|].
  destruct (String.eqb_spec (py.lower (locations.name c)) wanted) as [E|E].
  - intros H. injection H as <-. exists c. auto.
  - intros H. destruct (IH H) as (c' & Hin & Hc'). exists c'. auto.
Qed.

Lemma find_name_some (city_id : string) (table : list locations.city)
    (n : string) :
  locations.find_name city_id table = Some n ->
  exists c, In c table /\ locations.id c = city_id /\ locations.name c = n.
Proof.
  induction table as [|c rest IH]; simpl; [discriminate|].
  destruct (String.eqb_spec (locations.id c) city_id) as [E|E].
  - intros H. injection H as <-. exists c. auto.
  - intros H. destruct (IH H) as (c' & Hin & Hc'). exists c'. auto.
Qed.

Lemma city_names_trimmed (c : locations.city) :
  In c locations.CITY_ID_MAP ->
  py.strip (py.lower (locations.name c)) = py.lower (locations.name c).
Proof. intros H. each_member H. Qed.

Lemma no_city_without_name :
  locations.find_id "" locations.CITY_ID_MAP = None.
Proof. reflexivity. Qed.

Lemma get_city_id_folded (city_name : string) :
  locations.get_city_id city_name
  = locations.find_id (py.strip (py.lower city_name)) locations.CITY_ID_MAP.
Proof.
  unfold locations.get_city_id.
  destruct city_name; [exact (eq_sym no_city_without_name) | reflexivity].
Qed.

(** X1.  The lookups are inverse in the other direction as well: the
    name that [get_city_name] gives for an identifier resolves back to
    that identifier. *)
Theorem city_id_of_named_city (city_id n : string) :
  locations.get_city_name city_id = Some n ->
  locations.get_city_id n = Some city_id.
Proof.
  unfold locations.get_city_name.
  destruct (py.nonempty city_id); cbv [negb]; [|discriminate].
  intros H. apply find_name_some in H. destruct H as (c & Hin & <- & <-).
  rewrite get_city_id_folded, (city_names_trimmed c Hin).
  exact (find_id_first _ c city_names_distinct Hin).
Qed.

Lemma city_id_of_named_city_witness :
  locations.get_city_id "Cox's Bazar" = Some "13".
Proof. apply (city_id_of_named_city "13" "Cox's Bazar"). reflexivity. Defined.

(** X2.  The lookup by name sees only the trimmed name without its case:
    two names that are equal up to case and surrounding white space
    resolve alike. *)
Theorem get_city_id_ignores_case_and_padding (s t : string) :
  spec.eq_ignore_case (py.strip s) (py.strip t) = true ->
  locations.get_city_id s = locations.get_city_id t.
Proof.
  intros H. apply eq_ignore_case_lower in H. rewrite <- !strip_lower in H.
  now rewrite !get_city_id_folded, H.
Qed.

Lemma get_city_id_ignores_case_and_padding_witness :
  locations.get_city_id "  SYLHET" = locations.get_city_id "sylhet ".
Proof.
  apply (get_city_id_ignores_case_and_padding "  SYLHET" "sylhet ").
  vm_compute. reflexivity.
Defined.

(** X3.  Whatever [get_city_id] resolves, [search_cities] finds: the
    city of the identifier is among the matches of the same query. *)
Theorem search_cities_finds_resolved_city (query i : string) :
  locations.get_city_id query = Some i ->
  exists c, In c (locations.search_cities query) /\ locations.id c = i.
Proof.
  intros H. unfold locations.search_cities.
  destruct (py.nonempty query) eqn:Hq; cbv [negb].
  - rewrite get_city_id_folded in H. apply find_id_some in H.
    destruct H as (c & Hin & Hname & Hid). exists c. split; [|exact Hid].
    apply filter_In. split; [exact Hin|]. rewrite Hname. apply contains_refl.
  - unfold locations.get_city_id in H. rewrite Hq in H. discriminate.
Qed.

Lemma search_cities_finds_resolved_city_witness :
  exists c, In c (locations.search_cities " khulna") /\ locations.id c = "28".
Proof.
  apply (search_cities_finds_resolved_city " khulna" "28"). reflexivity.
Defined.

Lemma blank_lower (s : string) : spec.blank (py.lower s) = spec.blank s.
Proof.
  induction s as [|c s IH]; simpl; [reflexivity|].
  now rewrite is_space_lower_char, IH.
Qed.

Lemma filter_all {A} (l : list A) : filter (fun _ => true) l = l.
Proof. induction l; simpl; congruence. Qed.

(** X4.  The two empty queries of [search_cities] differ: the empty
    string matches nothing, but a query of white space only, which is
    empty once trimmed, matches every city of the table. *)
Theorem search_cities_blank_query (query : string) :
  spec.blank query = true ->
  locations.search_cities query
  = if py.nonempty query then locations.CITY_ID_MAP else [].
Proof.
  intros H. unfold locations.search_cities.
  destruct (py.nonempty query); cbv [negb]; [|reflexivity].
  rewrite <- blank_lower in H. apply strip_empty in H. rewrite H.
  rewrite (filter_ext _ (fun _ => true)); [apply filter_all|].
  intros c. apply contains_empty.
Qed.

Lemma search_cities_blank_query_witness :
  locations.search_cities "  " = locations.CITY_ID_MAP.
Proof. apply (search_cities_blank_query "  "). reflexivity. Defined.

(** X5.  [search_cities] returns, in the order of the table, exactly the
    cities whose name holds the trimmed query somewhere, up to case; so
    a query that holds another one finds no city that the other one
    misses. *)
Theorem search_cities_narrows (wide narrow : string) :
  py.nonempty wide = true ->
  py.contains (py.strip (py.lower wide)) (py.strip (py.lower narrow)) = true ->
  (forall c, In c (locations.search_cities narrow) ->
             In c (locations.search_cities wide))
  /\ (forall c,
        In c (locations.search_cities wide) <->
        In c locations.CITY_ID_MAP
        /\ exists before after,
             py.lower (locations.name c)
             = before ++ py.strip (py.lower wide) ++ after).
Proof.
  intros Hw Hsub. unfold locations.search_cities. rewrite Hw. cbv [negb].
  split.
  - intros c. destruct (py.nonempty narrow); cbv [negb]; [|contradiction].
    rewrite !filter_In. intros [Hin Hc]. split; [exact Hin|].
    exact (contains_trans _ _ _ Hsub Hc).
  - intros c. rewrite filter_In, contains_splits. reflexivity.
Qed.

Lemma search_cities_narrows_witness :
  In (locations.City "1003" "Dhaka Division") (locations.search_cities "dhaka").
Proof.
  assert (Hwide : py.nonempty "dhaka" = true) by reflexivity.
  assert (Hsub : py.contains (py.strip (py.lower "dhaka"))
                   (py.strip (py.lower "Dhaka Div")) = true)
    by (vm_compute; reflexivity).
  apply (proj1 (search_cities_narrows "dhaka" "Dhaka Div" Hwide Hsub)).
  vm_compute. auto.
Defined.

(** ** More on the models *)

(** X6.  The derived views of a page agree: [total_results] is the
    number of [all_jobs]; the remote jobs are exactly the listings of
    [all_jobs] with the online flag, the regular ones before the premium
    ones, and so never more than [total_results]. *)
Theorem page_views_agree (r : models.SearchResults) :
  models.total_results r = List.length (models.all_jobs r)
  /\ models.get_remote_jobs r
     = (filter models.is_remote (models.data r)
        ++ filter models.is_remote (models.premiumData r))%list
  /\ (forall j, In j (models.get_remote_jobs r) <->
                In j (models.all_jobs r) /\ models.OnlineJob j = true)
  /\ List.length (models.get_remote_jobs r) <= models.total_results r.
Proof.
  unfold models.total_results, models.get_remote_jobs, models.all_jobs.
  split; [now rewrite length_app|].
  split; [apply filter_app|].
  split; [intros j; apply filter_In|].
  rewrite <- length_app. apply filter_length_le.
Qed.

Section MoreModels.

Import pydantic.

Context (lib : library).

Lemma items_valid {A} (v : py.value -> validated A) (xs : list py.value) :
  forall (index : nat) (l : list A),
    items_ v index xs = inr l -> Forall2 (fun x a => v x = inr a) xs l.
Proof.
  induction xs as [|x xs IH]; intros index l H; cbn [items_] in H.
  - injection H as <-. constructor.
  - apply ap_valid in H. destruct H as (g & tl & H & Htl & ->).
    apply ap_valid in H. destruct H as (g' & a & H & Ha & ->).
    injection H as <-. constructor.
    + now apply under_valid in Ha.
    + exact (IH _ _ Htl).
Qed.

Lemma list_valid {A} (v : py.value -> validated A) (x : py.value) (l : list A) :
  list_ v x = inr l ->
  exists xs, x = py.JArray xs /\ Forall2 (fun y a => v y = inr a) xs l.
Proof.
  destruct x; simpl; try discriminate. intros H.
  eexists. split; [reflexivity|]. exact (items_valid v _ _ _ H).
Qed.

Lemma optional_valid {A} field (v : py.value -> validated A) default kw (a : A) :
  optional field v default kw = inr a ->
  match py.dict_get field kw with
  | None => a = default
  | Some x => v x = inr a
  end.
Proof.
  unfold optional. destruct (py.dict_get field kw).
  - apply under_valid.
  - intros H. now injection H.
Qed.

(** X7.  A page is constructed from all the listings of the body or not
    at all: when the body carries the regular (or the premium) sequence,
    it is an array, and the page has one listing per element of it, in
    the same order, each constructed from that element, which is a
    dictionary. *)
Theorem page_keeps_every_listing (kw : py.dict) (page : models.SearchResults) :
  models.new_SearchResults lib kw = inr page ->
  let listed x l :=
    exists d, x = py.JObject d /\ models.new_SearchResult lib d = inr l in
  (forall x, py.dict_get "data" kw = Some x ->
             exists xs, x = py.JArray xs
                        /\ Forall2 listed xs (models.data page))
  /\ (forall x, py.dict_get "premiumData" kw = Some x ->
                exists xs, x = py.JArray xs
                           /\ Forall2 listed xs (models.premiumData page)).
Proof.
  intros H listed. unfold models.new_SearchResults in H. fields H.
  injection H as <-. simpl.
  assert (Hitem : forall x l,
            model_ (models.new_SearchResult lib) x = inr l -> listed x l).
  { intros x l Hx. apply model_valid in Hx. exact Hx. }
  split; intros x Hget;
    match goal with
    | Hf : optional ?f _ _ kw = inr ?l |- exists _, _ /\ Forall2 _ _ ?l =>
        apply optional_valid in Hf; rewrite Hget in Hf;
        apply list_valid in Hf; destruct Hf as (ys & Hys & Hall);
        exists ys; split; [exact Hys | exact (Forall2_impl _ Hitem Hall)]
    end.
Qed.

Lemma required_agrees {A} field (v : py.value -> validated A) kw kw' :
  py.dict_get field kw = py.dict_get field kw' ->
  required field v kw = required field v kw'.
Proof. unfold required. now intros ->. Qed.

Lemma optional_agrees {A} field (v : py.value -> validated A) default kw kw' :
  py.dict_get field kw = py.dict_get field kw' ->
  optional field v default kw = optional field v default kw'.
Proof. unfold optional. now intros ->. Qed.

Lemma dict_get_other (field key : string) (x : py.value) (kw : py.dict) :
  key <> field -> py.dict_get field ((key, x) :: kw) = py.dict_get field kw.
Proof.
  intros H. simpl. destruct (String.eqb_spec key field); [contradiction|].
  reflexivity.
Qed.

(** X8.  The models read their declared fields and nothing else: two
    inputs that agree on the declared fields construct the same listing
    (or fail alike), and the same holds for pages; in particular an
    entry under any other key changes nothing. *)
Theorem undeclared_keys_ignored (kw kw' : py.dict) :
  ((forall f, In f spec.listing_fields ->
              py.dict_get f kw = py.dict_get f kw') ->
   models.new_SearchResult lib kw = models.new_SearchResult lib kw')
  /\ ((forall f, In f spec.page_fields ->
                 py.dict_get f kw = py.dict_get f kw') ->
      models.new_SearchResults lib kw = models.new_SearchResults lib kw')
  /\ (forall key x,
        ~ In key spec.listing_fields ->
        models.new_SearchResult lib ((key, x) :: kw)
        = models.new_SearchResult lib kw)
  /\ (forall key x,
        ~ In key spec.page_fields ->
        models.new_SearchResults lib ((key, x) :: kw)
        = models.new_SearchResults lib kw).
Proof.
  assert (Hlisting : forall k k',
    (forall f, In f spec.listing_fields -> py.dict_get f k = py.dict_get f k') ->
    models.new_SearchResult lib k = models.new_SearchResult lib k').
  { intros k k' H. unfold models.new_SearchResult.
    repeat match goal with
      | |- context [required ?f ?v k] =>
          rewrite (required_agrees f v k k') by (apply H; simpl; tauto)
      | |- context [optional ?f ?v ?d k] =>
          rewrite (optional_agrees f v d k k') by (apply H; simpl; tauto)
      end.
    reflexivity. }
  assert (Hpage : forall k k',
    (forall f, In f spec.page_fields -> py.dict_get f k = py.dict_get f k') ->
    models.new_SearchResults lib k = models.new_SearchResults lib k').
  { intros k k' H. unfold models.new_SearchResults.
    repeat match goal with
      | |- context [required ?f ?v k] =>
          rewrite (required_agrees f v k k') by (apply H; simpl; tauto)
      | |- context [optional ?f ?v ?d k] =>
          rewrite (optional_agrees f v d k k') by (apply H; simpl; tauto)
      end.
    reflexivity. }
  split; [apply Hlisting|]. split; [apply Hpage|]. split.
  - intros key x Hkey. apply Hlisting. intros f Hf. apply dict_get_other.
    intros ->. contradiction.
  - intros key x Hkey. apply Hpage. intros f Hf. apply dict_get_other.
    intros ->. contradiction.
Qed.

Lemma ap_fails_left {A B} (e : line_error) (f : validated (A -> B))
    (x : validated A) :
  spec.fails_with e f -> spec.fails_with e (ap f x).
Proof.
  intros (ef & -> & Hin). destruct x as [ex|a]; simpl.
  - exists (ef ++ ex)%list. split; [reflexivity|]. apply in_or_app. auto.
  - exists ef. auto.
Qed.

Lemma ap_fails_right {A B} (e : line_error) (f : validated (A -> B))
    (x : validated A) :
  spec.fails_with e x -> spec.fails_with e (ap f x).
Proof.
  intros (ex & -> & Hin). destruct f as [ef|g]; simpl.
  - exists (ef ++ ex)%list. split; [reflexivity|]. apply in_or_app. auto.
  - exists ex. auto.
Qed.

Lemma required_missing {A} field (v : py.value -> validated A) kw :
  py.dict_get field kw = None ->
  spec.fails_with (LineError [field] "missing") (required field v kw).
Proof.
  intros H. unfold required. rewrite H. eexists. split; [reflexivity|].
  now left.
Qed.

(** X9.  Every field that a model declares with [Field(...)] is needed:
    a listing without [Jobid], [jobTitle] or [companyName], and a page
    without [message], [statuscode] or [common], is not constructed, and
    the errors name the missing field, whatever else is wrong with the
    input. *)
Theorem missing_field_reported (kw : py.dict) (field : string) :
  py.dict_get field kw = None ->
  (In field ["Jobid"; "jobTitle"; "companyName"] ->
   spec.fails_with (LineError [field] "missing")
     (models.new_SearchResult lib kw))
  /\ (In field ["message"; "statuscode"; "common"] ->
      spec.fails_with (LineError [field] "missing")
        (models.new_SearchResults lib kw)).
Proof.
  intros Hnone. split; intros Hin; simpl in Hin;
    repeat (destruct Hin as [<-|Hin]; [|]); try contradiction;
    unfold models.new_SearchResult, models.new_SearchResults;
    repeat first [ apply ap_fails_right; apply required_missing; exact Hnone
                 | apply ap_fails_left ].
Qed.

End MoreModels.

Lemma page_keeps_every_listing_witness :
  let kw := [("message", py.JString "Success"); ("statuscode", py.JString "1");
             ("data", py.JArray [fixtures.listing "101" "Engineer"]);
             ("common", py.JObject [])] in
  exists page,
    models.new_SearchResults fixtures.strict kw = inr page
    /\ exists xs,
         py.JArray [fixtures.listing "101" "Engineer"] = py.JArray xs
         /\ Forall2
              (fun x l =>
                 exists d, x = py.JObject d
                           /\ models.new_SearchResult fixtures.strict d = inr l)
              xs (models.data page).
Proof.
  intros kw.
  destruct (models.new_SearchResults fixtures.strict kw) as [errors|page] eqn:E;
    [discriminate E|].
  exists page. split; [reflexivity|].
  apply (page_keeps_every_listing fixtures.strict kw page E). reflexivity.
Defined.

Lemma undeclared_keys_ignored_witness :
  models.new_SearchResult fixtures.strict
    [("salary", py.JInt 5); ("Jobid", py.JString "7");
     ("jobTitle", py.JString "Clerk"); ("companyName", py.JString "ACME")]
  = models.new_SearchResult fixtures.strict
      [("Jobid", py.JString "7");
       ("jobTitle", py.JString "Clerk"); ("companyName", py.JString "ACME")].
Proof.
  apply (proj1 (proj2 (proj2 (undeclared_keys_ignored fixtures.strict
    [("Jobid", py.JString "7");
     ("jobTitle", py.JString "Clerk"); ("companyName", py.JString "ACME")]
    [])))).
  intros H. simpl in H.
  repeat (destruct H as [H|H]; [discriminate H|]). exact H.
Defined.

Lemma missing_field_reported_witness :
  spec.fails_with (pydantic.LineError ["jobTitle"] "missing")
    (models.new_SearchResult fixtures.strict
       [("Jobid", py.JString "7"); ("companyName", py.JInt 3)]).
Proof.
  apply (missing_field_reported fixtures.strict
           [("Jobid", py.JString "7"); ("companyName", py.JInt 3)] "jobTitle").
  - reflexivity.
  - simpl. auto.
Defined.

(** ** More on the transport *)

Section Pacing.

Import runtime.

Lemma Qltb_lt (a b : Q) : Qltb a b = true <-> (a < b)%Q.
Proof.
  unfold Qltb. rewrite negb_true_iff, <- not_true_iff_false, Qle_bool_iff.
  split; [apply Qnot_le_lt | apply Qlt_not_le].
Qed.

Lemma Qltb_ge (a b : Q) : Qltb a b = false <-> (b <= a)%Q.
Proof. unfold Qltb. now rewrite negb_false_iff, Qle_bool_iff. Qed.

(** X10.  [rate_limit] always returns, sends nothing, leaves the client
    alone and records the present moment as the time of the last
    request.  When at least [MIN_REQUEST_INTERVAL] has passed since the
    request recorded before, it does not sleep and the clock stands.
    Otherwise it sleeps at most once, and then because less than the
    interval had passed, for a positive time that is no longer than the
    interval unless the clock has gone back. *)
Theorem rate_limit_waits_at_most_once (w : world) :
  let w' := snd (http_client.rate_limit w) in
  let elapsed := (clock w - last_request_time w)%Q in
  fst (http_client.rate_limit w) = Return tt
  /\ last_request_time w' = clock w'
  /\ requests w' = requests w
  /\ client_open w' = client_open w
  /\ ((config.MIN_REQUEST_INTERVAL <= elapsed)%Q ->
      clock w' = clock w /\ sleeps w' = sleeps w)
  /\ (sleeps w' = sleeps w
      \/ exists d,
           sleeps w' = (sleeps w ++ [d])%list
           /\ (0 < d)%Q
           /\ (elapsed < config.MIN_REQUEST_INTERVAL)%Q
           /\ ((0 <= elapsed)%Q -> (d <= config.MIN_REQUEST_INTERVAL)%Q)).
Proof.
  cbv zeta.
  unfold http_client.rate_limit, bind, time, http_client.get_last_request_time,
    http_client.set_last_request_time.
  destruct (Qltb (clock w - last_request_time w) config.MIN_REQUEST_INTERVAL)
    eqn:E; simpl.
  - apply Qltb_lt in E.
    do 4 (split; [reflexivity|]).
    split; [intros H; exfalso; lra|].
    right. eexists. split; [reflexivity|].
    split; [lra|]. split; [exact E | intros H; lra].
  - apply Qltb_ge in E.
    do 4 (split; [reflexivity|]).
    split; [split; reflexivity | now left].
Qed.

Lemma rate_limit_quiet (w : world) :
  (config.MIN_REQUEST_INTERVAL <= clock w - last_request_time w)%Q ->
  http_client.rate_limit w
  = (Return tt,
     World (clock w) (clock w) (client_open w) (requests w) (sleeps w)).
Proof.
  intros H. apply Qltb_ge in H.
  unfold http_client.rate_limit, bind, time, http_client.get_last_request_time,
    http_client.set_last_request_time.
  now rewrite H.
Qed.

Lemma rate_limit_result (w : world) :
  exists c s,
    http_client.rate_limit w
    = (Return tt, World c c (client_open w) (requests w) s).
Proof.
  unfold http_client.rate_limit, bind, time, http_client.get_last_request_time,
    http_client.set_last_request_time.
  destruct (Qltb _ _); simpl; eauto.
Qed.

Lemma backoff_value (n : nat) :
  1 <= n ->
  (spec.backoff n == inject_Z (Z.min (2 ^ (Z.of_nat n - 1)) 10))%Q.
Proof.
  intros Hn.
  unfold spec.backoff, tenacity.wait_exponential, config.RETRY_MIN_WAIT,
    config.RETRY_MAX_WAIT.
  cbv zeta.
  set (z := (2 ^ (Z.of_nat n - 1))%Z).
  assert (Hz : (1 <= z)%Z).
  { assert (0 < z)%Z by (apply Z.pow_pos_nonneg; lia). lia. }
  assert (Hpow : (1 * 2 ^ (Z.of_nat n - 1) == inject_Z z)%Q).
  { rewrite Qmult_1_l. subst z. rewrite Zpower_Qpower by lia. reflexivity. }
  assert (Hq : (1 <= inject_Z z)%Q).
  { change 1%Q with (inject_Z 1). now rewrite <- Zle_Qle. }
  destruct (Qltb 10 (1 * 2 ^ (Z.of_nat n - 1))) eqn:E.
  - apply Qltb_lt in E. rewrite Hpow in E.
    change 10%Q with (inject_Z 10) in E. rewrite <- Zlt_Qlt in E.
    rewrite Z.min_r by lia. reflexivity.
  - apply Qltb_ge in E. rewrite Hpow in E.
    change 10%Q with (inject_Z 10) in E. rewrite <- Zle_Qle in E.
    rewrite Z.min_l by exact E.
    destruct (Qltb 0 (1 * 2 ^ (Z.of_nat n - 1))) eqn:E0; [exact Hpow|].
    apply Qltb_ge in E0. rewrite Hpow in E0. lra.
Qed.

Lemma backoff_at_least_interval (n : nat) :
  (config.MIN_REQUEST_INTERVAL <= spec.backoff n)%Q.
Proof.
  destruct n as [|n]; [vm_compute; discriminate|].
  rewrite backoff_value by lia. unfold config.MIN_REQUEST_INTERVAL.
  assert (H : (1 <= Z.min (2 ^ (Z.of_nat (S n) - 1)) 10)%Z).
  { apply Z.min_glb; [|lia].
    assert (0 < 2 ^ (Z.of_nat (S n) - 1))%Z by (apply Z.pow_pos_nonneg; lia).
    lia. }
  rewrite Zle_Qle in H. change (inject_Z 1) with 1%Q in H. lra.
Qed.

(** X11.  The pause that [api_get] is configured to take before a retry
    is exponential and capped.  After the [n]-th attempt, attempts being
    counted from one, it is [RETRY_MIN_WAIT] times two to the [n - 1],
    at most [RETRY_MAX_WAIT]: one second after the first attempt, twice
    as long after each further one, and ten seconds from the fifth
    attempt on; so it lies between [RETRY_MIN_WAIT] and [RETRY_MAX_WAIT]
    and never shrinks. *)
Theorem backoff_doubles_up_to_cap (n : nat) :
  1 <= n ->
  (spec.backoff n == inject_Z (Z.min (2 ^ (Z.of_nat n - 1)) 10))%Q
  /\ (config.RETRY_MIN_WAIT <= spec.backoff n)%Q
  /\ (spec.backoff n <= config.RETRY_MAX_WAIT)%Q
  /\ (spec.backoff n <= spec.backoff (S n))%Q
  /\ (spec.backoff 1 == config.RETRY_MIN_WAIT)%Q
  /\ (5 <= n -> (spec.backoff n == config.RETRY_MAX_WAIT)%Q).
Proof.
  intros Hn.
  assert (Hpos : forall k, (0 <= k)%Z -> (1 <= 2 ^ k)%Z).
  { intros k Hk. assert (0 < 2 ^ k)%Z by (apply Z.pow_pos_nonneg; lia).
    lia. }
  unfold config.RETRY_MIN_WAIT, config.RETRY_MAX_WAIT.
  split; [now apply backoff_value|].
  rewrite (backoff_value n), (backoff_value (S n)), (backoff_value 1) by lia.
  change 1%Q with (inject_Z 1). change 10%Q with (inject_Z 10).
  rewrite <- !Zle_Qle.
  split; [apply Z.min_glb; [apply Hpos; lia | lia]|].
  split; [apply Z.le_min_r|].
  split.
  - apply Z.min_le_compat_r. apply Z.pow_le_mono_r; lia.
  - split; [reflexivity|]. intros H. rewrite inject_Z_injective.
    apply Z.min_r.
    transitivity (2 ^ 4)%Z; [lia|]. apply Z.pow_le_mono_r; lia.
Qed.

Lemma backoff_doubles_up_to_cap_witness :
  (spec.backoff 3 == 4)%Q /\ (spec.backoff 7 == config.RETRY_MAX_WAIT)%Q.
Proof.
  split.
  - destruct (backoff_doubles_up_to_cap 3 ltac:(lia)) as (H & _).
    rewrite H. reflexivity.
  - destruct (backoff_doubles_up_to_cap 7 ltac:(lia)) as (_ & _ & _ & _ & _ & H).
    apply H. lia.
Defined.

End Pacing.

Section Traces.

Import runtime.

Context (lib : pydantic.library) (net : httpx.network).

(** The state that one attempt leaves behind, whatever its outcome. *)
Lemma api_get_once_trace (url : string) (w : world) :
  exists c s,
    http_client.rate_limit w
    = (Return tt, World c c (client_open w) (requests w) s)
    /\ snd (http_client.api_get_once lib net url w)
       = World c c true (requests w ++ [url])%list s.
Proof.
  destruct (rate_limit_result w) as (c & s & Hrl). exists c, s.
  split; [exact Hrl|].
  unfold http_client.api_get_once. unfold bind at 1. rewrite Hrl.
  unfold bind at 1, http_client.get_http_client. simpl client_open.
  assert (Hbody : forall w2,
    w2 = World c c true (requests w) s ->
    snd (try_except
           (bind (httpx.get net url) (fun response =>
            bind (httpx.raise_for_status response) (fun _ =>
            bind match httpx.json response with
                 | inl e => raise (ValueError ("API returned invalid JSON: " ++ e))
                 | inr v => ret v
                 end (fun data =>
            bind match http_client.api_error lib data with
                 | Some e => raise e
                 | None => ret tt
                 end (fun _ => ret data)))))
           (fun e =>
              match e with
              | HTTPStatusError _ => Some (raise e)
              | TimeoutException => Some (raise e)
              | RequestError => Some (raise e)
              | _ => None
              end) w2)
    = World c c true (requests w ++ [url])%list s).
  { intros w2 ->. unfold try_except, bind, httpx.get. simpl.
    destruct (net (List.length (requests w)) url) as [| |r]; simpl;
      [reflexivity | reflexivity |].
    unfold httpx.raise_for_status.
    destruct (httpx.is_success r); simpl; [|reflexivity].
    destruct (httpx.json r) as [text|body]; simpl; [reflexivity|].
    destruct (http_client.api_error lib body) as [e|] eqn:Ee; simpl;
      [|reflexivity].
    destruct (api_error_class lib body e Ee) as (msg & ->). reflexivity. }
  destruct (client_open w); simpl; apply Hbody; reflexivity.
Qed.

(** The retry loop leaves the client open and the present moment
    recorded, has sent one request per attempt, and has slept, after the
    rate limiter of the first attempt, only the pauses between the
    attempts. *)
Lemma attempts_trace (url : string) (left : nat) :
  forall (attempt_number : nat) (w : world),
  exists i w',
    i <= left
    /\ snd (tenacity.attempts is_HTTPError spec.backoff left attempt_number
              (http_client.api_get_once lib net url) w) = w'
    /\ requests w' = (requests w ++ repeat url (S i))%list
    /\ sleeps w' = (sleeps (snd (http_client.rate_limit w))
                    ++ map spec.backoff (seq attempt_number i))%list
    /\ client_open w' = true
    /\ last_request_time w' = clock w'.
Proof.
  induction left as [|left IH]; intros attempt_number w;
    destruct (api_get_once_trace url w) as (c & s & Hrl & Hw1);
    cbn [tenacity.attempts]; unfold try_except;
    destruct (http_client.api_get_once lib net url w) as [o w1];
    simpl in Hw1; subst w1; rewrite Hrl; simpl snd.
  - exists 0. eexists. split; [lia|]. split; [reflexivity|].
    destruct o as [v|e]; [|destruct (is_HTTPError e)]; simpl;
      rewrite app_nil_r; auto.
  - destruct o as [v|e]; [|destruct (is_HTTPError e)].
    + exists 0. eexists. split; [lia|]. split; [reflexivity|]. simpl.
      rewrite app_nil_r. auto.
    + unfold bind, sleep. simpl.
      set (wb := World (c + spec.backoff attempt_number)%Q c true
                       (requests w ++ [url])%list
                       (s ++ [spec.backoff attempt_number])%list).
      destruct (IH (S attempt_number) wb)
        as (i & w' & Hi & Hrun & Hreq & Hsl & Hopen & Hlast).
      assert (Hquiet : http_client.rate_limit wb
                       = (Return tt,
                          World (clock wb) (clock wb) (client_open wb)
                                (requests wb) (sleeps wb))).
      { apply rate_limit_quiet. subst wb. simpl.
        pose proof (backoff_at_least_interval attempt_number). lra. }
      rewrite Hquiet in Hsl. simpl in Hsl, Hreq.
      exists (S i), w'. split; [lia|]. split; [exact Hrun|].
      split; [rewrite Hreq, <- app_assoc; reflexivity|].
      split; [rewrite Hsl, <- app_assoc; reflexivity|]. auto.
    + exists 0. eexists. split; [lia|]. split; [reflexivity|]. simpl.
      rewrite app_nil_r. auto.
Qed.

(** X12.  A call of [api_get] sends between one and [MAX_RETRIES]
    requests, all to the URL it was given.  Between the attempts it
    pauses one second and then two, and the rate limiter, which may make
    the first attempt wait, never adds to these pauses. *)
Theorem api_get_pauses_between_attempts (url : string) (w : world) :
  exists i,
    i < config.MAX_RETRIES
    /\ requests (snd (http_client.api_get lib net url w))
       = (requests w ++ repeat url (S i))%list
    /\ sleeps (snd (http_client.api_get lib net url w))
       = (sleeps (snd (http_client.rate_limit w))
          ++ firstn i [1%Q; 2%Q])%list.
Proof.
  destruct (attempts_trace url (config.MAX_RETRIES - 1) 1 w)
    as (i & w' & Hi & Hrun & Hreq & Hsl & _).
  exists i. unfold http_client.api_get, tenacity.retry.
  change (tenacity.wait_exponential config.RETRY_MIN_WAIT config.RETRY_MAX_WAIT)
    with (fun n => spec.backoff n).
  change (fun n => spec.backoff n) with spec.backoff.
  rewrite Hrun. unfold config.MAX_RETRIES in *. simpl in Hi.
  split; [lia|]. split; [exact Hreq|]. rewrite Hsl. f_equal.
  destruct i as [|[|[|i]]]; [reflexivity | reflexivity | reflexivity | lia].
Qed.

(** X13.  The shared client: [api_get] leaves it open, also when it
    raises; [close_http_client] closes it and changes nothing else,
    closing twice is closing once, and [api_get] opens it again
    afterwards. *)
Theorem client_open_after_api_get (url : string) (w : world) :
  client_open (snd (http_client.api_get lib net url w)) = true
  /\ (let w' := snd (http_client.close_http_client w) in
      client_open w' = false
      /\ clock w' = clock w
      /\ last_request_time w' = last_request_time w
      /\ requests w' = requests w
      /\ sleeps w' = sleeps w
      /\ snd (http_client.close_http_client w') = w'
      /\ client_open (snd (http_client.api_get lib net url w')) = true).
Proof.
  assert (Hopen : forall w0,
            client_open (snd (http_client.api_get lib net url w0)) = true).
  { intros w0.
    destruct (attempts_trace url (config.MAX_RETRIES - 1) 1 w0)
      as (i & w' & _ & Hrun & _ & _ & Hopen & _).
    unfold http_client.api_get, tenacity.retry.
    change (tenacity.wait_exponential config.RETRY_MIN_WAIT
              config.RETRY_MAX_WAIT) with (fun n => spec.backoff n).
    change (fun n => spec.backoff n) with spec.backoff.
    now rewrite Hrun. }
  split; [apply Hopen|]. cbv zeta.
  split; [|split; [|split; [|split; [|split; [|split; [|apply Hopen]]]]]];
    unfold http_client.close_http_client;
    destruct (client_open w) eqn:E; simpl; try rewrite E; auto.
Qed.

(** X14.  Inside [http_client_context] the body finds the client open;
    when the block is left the client is closed, whether the body
    returned or raised, and the outcome of the block is the outcome of
    the body. *)
Theorem http_client_context_closes {A} (body : M A) (w : world) :
  let entered := snd (http_client.get_http_client w) in
  client_open entered = true
  /\ fst (http_client.http_client_context body w) = fst (body entered)
  /\ client_open (snd (http_client.http_client_context body w)) = false
  /\ requests (snd (http_client.http_client_context body w))
     = requests (snd (body entered))
  /\ sleeps (snd (http_client.http_client_context body w))
     = sleeps (snd (body entered)).
Proof.
  cbv zeta.
  assert (Hin : client_open (snd (http_client.get_http_client w)) = true).
  { unfold http_client.get_http_client.
    destruct (client_open w) eqn:E; simpl; auto. }
  split; [exact Hin|].
  unfold http_client.http_client_context, try_finally, bind.
  destruct (http_client.get_http_client w) as [o w0] eqn:Eg.
  assert (o = Return tt) as ->.
  { unfold http_client.get_http_client in Eg.
    destruct (negb (client_open w)); now injection Eg. }
  simpl snd. destruct (body w0) as [r w1]. simpl.
  unfold http_client.close_http_client.
  destruct (client_open w1) eqn:E; simpl; auto.
Qed.

End Traces.

(** ** More on the query builder and the search *)

Lemma chars_append (s t : string) :
  list_ascii_of_string (s ++ t)
  = (list_ascii_of_string s ++ list_ascii_of_string t)%list.
Proof. induction s; simpl; congruence. Qed.

Lemma append_cancel (p s t : string) : p ++ s = p ++ t -> s = t.
Proof. induction p; simpl; intros H; [exact H | injection H; auto]. Qed.

Lemma quote_plus_char_safe (c : ascii) :
  forallb spec.url_char (list_ascii_of_string (py.quote_plus_char c)) = true.
Proof.
  apply (for_every_char
           (fun c => forallb spec.url_char
                       (list_ascii_of_string (py.quote_plus_char c)))).
  vm_compute. reflexivity.
Qed.

Lemma quote_plus_char_of_safe (c : ascii) :
  py.always_safe c = true -> py.quote_plus_char c = String c "".
Proof.
  assert (H : forall c, implb (py.always_safe c)
                          (String.eqb (py.quote_plus_char c) (String c ""))
                        = true).
  { apply for_every_char. vm_compute. reflexivity. }
  intros Hc. specialize (H c). rewrite Hc in H. now apply String.eqb_eq.
Qed.

Lemma escaped_head_append (x r : string) (c : ascii) :
  spec.escaped_head x = Some c -> spec.escaped_head (x ++ r) = Some c.
Proof.
  unfold spec.escaped_head.
  destruct x as [|c1 x]; [discriminate|]. cbn [String.append].
  destruct (Ascii.eqb c1 "+"); [trivial|].
  destruct (Ascii.eqb c1 "%"); [|trivial].
  destruct x as [|h1 [|h2 x]]; try discriminate. cbn [String.append].
  cbv zeta.
  destruct (Nat.ltb (16 * spec.hex_value h1 + spec.hex_value h2) 128);
    [trivial|].
  destruct x as [|p [|h3 [|h4 x]]]; try discriminate. trivial.
Qed.

Lemma escaped_head_quote_plus_char (c : ascii) (r : string) :
  spec.escaped_head (py.quote_plus_char c ++ r) = Some c.
Proof.
  apply escaped_head_append.
  assert (H : forall c,
            match spec.escaped_head (py.quote_plus_char c) with
            | Some d => Ascii.eqb d c
            | None => false
            end = true).
  { apply for_every_char. vm_compute. reflexivity. }
  specialize (H c).
  destruct (spec.escaped_head (py.quote_plus_char c)) as [d|];
    [|discriminate H].
  apply Ascii.eqb_eq in H. now subst d.
Qed.

Lemma quote_plus_char_nonempty (c : ascii) (r : string) :
  py.quote_plus_char c ++ r <> "".
Proof.
  assert (H : forall c, py.nonempty (py.quote_plus_char c) = true).
  { apply for_every_char. vm_compute. reflexivity. }
  specialize (H c). destruct (py.quote_plus_char c); [discriminate H|].
  discriminate.
Qed.

Lemma quote_plus_append (s t : string) :
  py.quote_plus (s ++ t) = py.quote_plus s ++ py.quote_plus t.
Proof.
  induction s as [|c s IH]; simpl; [reflexivity|].
  now rewrite IH, append_assoc.
Qed.

(** X15.  What [quote_plus] returns is made of letters, digits and the
    characters [_.-~+%] only, so an escaped keyword, job type or job
    level can never bring a separator of the query string into the URL;
    a text of letters, digits and [_.-~] is left as it is, and the
    escaping of a concatenation is the concatenation of the escapings. *)
Theorem quote_plus_output_is_safe (s t : string) :
  (forall c, In c (list_ascii_of_string (py.quote_plus s)) ->
             spec.url_char c = true
             /\ ~ In c (list_ascii_of_string "&=?#/ "))
  /\ (forallb py.always_safe (list_ascii_of_string s) = true ->
      py.quote_plus s = s)
  /\ py.quote_plus (s ++ t) = py.quote_plus s ++ py.quote_plus t.
Proof.
  split; [|split; [|apply quote_plus_append]].
  - assert (Hsafe : forall c, In c (list_ascii_of_string (py.quote_plus s)) ->
                              spec.url_char c = true).
    { induction s as [|a s IH]; simpl; [contradiction|].
      intros c. rewrite chars_append, in_app_iff. intros [H|H]; [|auto].
      pose proof (quote_plus_char_safe a) as Ha.
      rewrite forallb_forall in Ha. auto. }
    intros c Hc. split; [auto|]. apply Hsafe in Hc. intros Hin. simpl in Hin.
    repeat (destruct Hin as [<-|Hin]; [discriminate Hc|]). contradiction.
  - induction s as [|a s IH]; simpl; [reflexivity|].
    rewrite andb_true_iff. intros [Ha Hs].
    now rewrite (quote_plus_char_of_safe a Ha), IH.
Qed.

Lemma quote_plus_output_is_safe_witness :
  py.quote_plus "Dev-Ops_2.0~x" = "Dev-Ops_2.0~x".
Proof.
  apply (proj1 (proj2 (quote_plus_output_is_safe "Dev-Ops_2.0~x" ""))).
  reflexivity.
Defined.

(** X16.  [quote_plus] loses nothing: two texts with the same escaping
    are the same text, so two different keywords never lead to the same
    keyword parameter. *)
Theorem quote_plus_injective (s t : string) :
  py.quote_plus s = py.quote_plus t -> s = t.
Proof.
  revert t. induction s as [|a s IH]; intros [|b t]; simpl; intros H.
  - reflexivity.
  - symmetry in H. contradiction (quote_plus_char_nonempty b _ H).
  - contradiction (quote_plus_char_nonempty a _ H).
  - assert (a = b) as ->.
    { pose proof (escaped_head_quote_plus_char a (py.quote_plus s)) as Ha.
      rewrite H, escaped_head_quote_plus_char in Ha. now injection Ha. }
    apply append_cancel in H. now rewrite (IH t H).
Qed.

Lemma quote_plus_injective_witness : "a b" = "a b".
Proof. apply (quote_plus_injective "a b" "a b"). reflexivity. Defined.

(** X17.  The text given as location never reaches the URL.  The URL is
    built from the other filters and from a location parameter that is
    empty or an identifier of the city table; and two filter sets that
    differ in the location only, the two locations being equal up to
    case and surrounding white space, give the same URL. *)
Theorem location_parameter_from_table (a : scraper.filters) (l1 l2 : string) :
  (exists p,
     scraper.build_search_url a
     = scraper.search_url (spec.with_location a "") p
         (scraper.range (scraper.age_start a) (scraper.age_end a))
         (scraper.range (scraper.salary_start a) (scraper.salary_end a))
         (scraper.range (scraper.experience_start a) (scraper.experience_end a))
     /\ (p = "" \/ exists c, In c locations.CITY_ID_MAP /\ p = locations.id c))
  /\ (spec.eq_ignore_case (py.strip l1) (py.strip l2) = true ->
      scraper.build_search_url (spec.with_location a l1)
      = scraper.build_search_url (spec.with_location a l2)).
Proof.
  assert (Hurl : forall x,
    scraper.build_search_url x
    = scraper.search_url (spec.with_location x "")
        match locations.get_city_id (scraper.location x) with
        | Some i => i
        | None => ""
        end
        (scraper.range (scraper.age_start x) (scraper.age_end x))
        (scraper.range (scraper.salary_start x) (scraper.salary_end x))
        (scraper.range (scraper.experience_start x) (scraper.experience_end x))).
  { intros x. unfold scraper.build_search_url.
    destruct (scraper.location x); reflexivity. }
  split.
  - eexists. split; [apply Hurl|].
    destruct (locations.get_city_id (scraper.location a)) as [i|] eqn:E;
      [|now left].
    right. rewrite get_city_id_folded in E. apply find_id_some in E.
    destruct E as (c & Hin & _ & <-). eauto.
  - intros H. rewrite (Hurl (spec.with_location a l1)),
      (Hurl (spec.with_location a l2)).
    apply eq_ignore_case_lower in H. rewrite <- !strip_lower in H.
    cbn [spec.with_location scraper.location scraper.age_start scraper.age_end
         scraper.salary_start scraper.salary_end scraper.experience_start
         scraper.experience_end].
    rewrite !get_city_id_folded, H. reflexivity.
Qed.

Lemma location_parameter_from_table_witness :
  scraper.build_search_url (spec.with_location fixtures.dhaka_query "Dhaka")
  = scraper.build_search_url
      (spec.with_location fixtures.dhaka_query "  dHAKA ").
Proof.
  apply (proj2 (location_parameter_from_table
                  fixtures.dhaka_query "Dhaka" "  dHAKA ")).
  vm_compute. reflexivity.
Defined.

Section Budget.

Import runtime.

Context (lib : pydantic.library) (net : httpx.network).

(** X18.  A search never sends more than [MAX_RETRIES] requests and
    never asks for anything but the URL built from its arguments; it
    sends no request exactly when the arguments are rejected. *)
Theorem search_jobs_request_count (a : scraper.filters) (w : world) :
  exists k,
    k <= config.MAX_RETRIES
    /\ requests (snd (scraper.search_jobs lib net a w))
       = (requests w ++ repeat (scraper.build_search_url a) k)%list
    /\ (k = 0 <-> spec.rejected a).
Proof.
  destruct (rejected_dec a) as [Hrej|Hacc].
  - destruct (invalid_arguments_checked lib net a w Hrej) as (msg & -> & _).
    exists 0. simpl. rewrite app_nil_r. split; [lia|]. split; [reflexivity|].
    split; auto.
  - rewrite (search_jobs_accepted lib net a w Hacc).
    destruct (api_get_run lib net (scraper.build_search_url a) w)
      as (i & w' & Hi & -> & Hreq & _).
    exists (S i). split; [lia|]. split.
    + destruct (outline.reply lib _); exact Hreq.
    + split; [discriminate | contradiction].
Qed.

End Budget.

(** ** Outcomes of a search *)

Section Outcomes.

Import runtime.

Context (lib : pydantic.library) (net : httpx.network).

(** X19.  The checks of the arguments are made in a fixed order, and the
    first that fails gives the message: the keyword, then the page, then
    the page size. *)
Theorem first_failed_check_reported (a : scraper.filters) (w : world) :
  let raised msg :=
    scraper.search_jobs lib net a w = (Raise (ValueError msg), w) in
  (spec.blank (scraper.keyword a) = true ->
   raised "Keyword parameter is required and cannot be empty")
  /\ (spec.blank (scraper.keyword a) = false ->
      (scraper.page a < 1)%Z ->
      raised "Page number must be >= 1")
  /\ (spec.blank (scraper.keyword a) = false ->
      (1 <= scraper.page a)%Z ->
      (scraper.results_per_page a < 1 \/ 100 < scraper.results_per_page a)%Z ->
      raised "Results per page must be between 1 and 100").
Proof.
  cbv zeta. unfold scraper.search_jobs.
  assert (Hk : negb (py.nonempty (scraper.keyword a))
               || negb (py.nonempty (py.strip (scraper.keyword a)))
               = spec.blank (scraper.keyword a)).
  { destruct (spec.blank (scraper.keyword a)) eqn:E.
    - apply strip_empty in E. rewrite E. apply orb_true_r.
    - destruct (py.nonempty (py.strip (scraper.keyword a))) eqn:En.
      + destruct (scraper.keyword a); [discriminate En | reflexivity].
      + apply nonempty_false, strip_empty in En. congruence. }
  rewrite Hk. split; [|split].
  - intros ->. reflexivity.
  - intros -> Hp. apply Z.ltb_lt in Hp. now rewrite Hp.
  - intros -> Hp Hr. apply Z.ltb_ge in Hp. rewrite Hp.
    replace ((scraper.results_per_page a <? 1)%Z
             || (100 <? scraper.results_per_page a)%Z) with true; [reflexivity|].
    symmetry. apply orb_true_iff. rewrite !Z.ltb_lt. exact Hr.
Qed.

Lemma search_jobs_first_arrival (a : scraper.filters) (w : world)
    (r : httpx.response) :
  ~ spec.rejected a ->
  net (List.length (requests w)) (scraper.build_search_url a) = httpx.Arrives r ->
  httpx.is_success r = true ->
  exists w',
    scraper.search_jobs lib net a w =
      (match outline.reply lib (httpx.Arrives r) with
       | Return body => outline.parsed lib body
       | Raise e => Raise e
       end, w')
    /\ requests w' = (requests w ++ [scraper.build_search_url a])%list.
Proof.
  intros Hacc Hr Hok.
  destruct (api_get_first_arrival lib net _ w r Hr Hok) as (w' & Hrun & Hreq).
  exists w'. split; [|exact Hreq].
  rewrite (search_jobs_accepted lib net a w Hacc), Hrun.
  destruct (outline.reply lib (httpx.Arrives r)); reflexivity.
Qed.

(** X20.  An API error is raised at once and carries the text of the
    API: when the first response signals an error, [search_jobs] raises
    a [RuntimeError] after that single request, with the [message] of
    the body when that is a string and a placeholder when the body has
    none. *)
Theorem api_error_carries_message (a : scraper.filters) (w : world)
    (r : httpx.response) (d : py.dict) :
  ~ spec.rejected a ->
  net (List.length (requests w)) (scraper.build_search_url a) = httpx.Arrives r ->
  httpx.is_success r = true ->
  httpx.json r = inr (py.JObject d) ->
  spec.signals_api_error (py.JObject d) ->
  exists text w',
    scraper.search_jobs lib net a w
    = (Raise (RuntimeError ("API error: " ++ text)), w')
    /\ requests w' = (requests w ++ [scraper.build_search_url a])%list
    /\ (forall m, py.dict_get "message" d = Some (py.JString m) -> text = m)
    /\ (py.dict_get "message" d = None -> text = "Unknown API error").
Proof.
  intros Hacc Hr Hok Hjson (d' & sc & Hd & Hsc & Ht & Hne).
  injection Hd as <-.
  destruct (search_jobs_first_arrival a w r Hacc Hr Hok) as (w' & Hrun & Hreq).
  simpl in Hrun. rewrite Hok, Hjson in Hrun. simpl in Hrun.
  rewrite Hsc, Ht in Hrun.
  replace (py.differs_from_str sc "1") with true in Hrun.
  2:{ destruct sc; try reflexivity. simpl.
      destruct (String.eqb_spec s "1") as [->|]; [contradiction | reflexivity]. }
  simpl in Hrun. eexists. exists w'. split; [exact Hrun|].
  split; [exact Hreq|]. split.
  - intros m ->. reflexivity.
  - intros ->. reflexivity.
Qed.

(** X21.  A response that is delivered and signals no error but has not
    the shape of a page: when it is a dictionary, [search_jobs] raises a
    [ValueError] that wraps the text of the validation errors; when it is
    anything else, for instance an array, the [TypeError] of the
    unpacking escapes unwrapped. *)
Theorem shape_failure_reported (a : scraper.filters) (w : world)
    (r : httpx.response) (body : py.value) :
  ~ spec.rejected a ->
  net (List.length (requests w)) (scraper.build_search_url a) = httpx.Arrives r ->
  httpx.is_success r = true ->
  httpx.json r = inr body ->
  ~ spec.signals_api_error body ->
  (forall kw errors,
     body = py.JObject kw ->
     models.new_SearchResults lib kw = inl errors ->
     fst (scraper.search_jobs lib net a w)
     = Raise (ValueError ("Invalid API response format: "
                          ++ pydantic.error_str lib errors)))
  /\ ((forall kw, body <> py.JObject kw) ->
      fst (scraper.search_jobs lib net a w)
      = Raise (TypeError
                 ("jobpulse.models.SearchResults() argument after ** "
                  ++ "must be a mapping, not " ++ py.type_name body))).
Proof.
  intros Hacc Hr Hok Hjson Hquiet.
  destruct (search_jobs_first_arrival a w r Hacc Hr Hok) as (w' & Hrun & _).
  simpl in Hrun. rewrite Hok, Hjson in Hrun.
  apply (api_error_silent lib) in Hquiet. rewrite Hquiet in Hrun.
  rewrite Hrun. simpl fst. split.
  - intros kw errors -> Herr. simpl. now rewrite Herr.
  - intros Hno. destruct body; try reflexivity.
    contradiction (Hno items eq_refl).
Qed.

(** X22.  A page that [search_jobs] returns has the status code ["1"] or
    the empty string: every other status code has been turned into an
    API error by the transport. *)
Theorem returned_page_status (a : scraper.filters) (w : world)
    (page : models.SearchResults) :
  fst (scraper.search_jobs lib net a w) = Return page ->
  models.statuscode page = "1" \/ models.statuscode page = "".
Proof.
  intros H. destruct (rejected_dec a) as [Hrej|Hacc].
  { destruct (invalid_arguments_checked lib net a w Hrej) as (msg & E & _).
    rewrite E in H. discriminate. }
  rewrite (search_jobs_accepted lib net a w Hacc) in H.
  destruct (api_get_run lib net (scraper.build_search_url a) w)
    as (i & w' & _ & Hrun & _).
  rewrite Hrun in H.
  destruct (net (List.length (requests w) + i) (scraper.build_search_url a))
    as [| |r]; simpl in H; try discriminate.
  destruct (httpx.is_success r); [|discriminate].
  destruct (httpx.json r) as [text|body]; [discriminate|].
  destruct (http_client.api_error lib body) as [e|] eqn:Herr; [discriminate|].
  simpl in H. unfold outline.parsed in H.
  destruct body as [| | | | | |kw]; try discriminate.
  destruct (models.new_SearchResults lib kw) as [errors|p] eqn:Hpage;
    [discriminate|].
  injection H as ->.
  assert (Hfield : exists s, py.dict_get "statuscode" kw = Some (py.JString s)).
  { pose proof Hpage as Hp. unfold models.new_SearchResults in Hp. fields Hp.
    match goal with
    | Hf : pydantic.required "statuscode" _ kw = inr _ |- _ =>
        apply required_valid in Hf; destruct Hf as (x & Hget & Hstr);
        apply str_valid in Hstr; destruct Hstr as (t & -> & _)
    end.
    eauto. }
  destruct Hfield as (s & Hs).
  rewrite (page_statuscode lib kw page s Hpage Hs).
  unfold http_client.api_error in Herr. rewrite Hs in Herr.
  cbn [py.truthy py.differs_from_str] in Herr.
  destruct (String.eqb_spec s "1") as [E|Hne]; [left; exact E|].
  destruct s; [now right | discriminate Herr].
Qed.

End Outcomes.

Lemma first_failed_check_reported_witness :
  scraper.search_jobs fixtures.strict (fixtures.always httpx.TimesOut)
    {| scraper.keyword := " "; scraper.location := "";
       scraper.page := 0; scraper.results_per_page := 500;
       scraper.job_type := ""; scraper.job_level := "";
       scraper.age_start := 0; scraper.age_end := 0;
       scraper.posted_within := "";
       scraper.salary_start := 0; scraper.salary_end := 0;
       scraper.experience_start := 0; scraper.experience_end := 0;
       scraper.is_pro := 0; scraper.is_fresher := false;
       scraper.gender := ""; scraper.toggle_jobs := true;
       scraper.armyp := ""; scraper.workplace := "";
       scraper.facilities_for_pwd := "" |} fixtures.boot
  = (runtime.Raise
       (runtime.ValueError "Keyword parameter is required and cannot be empty"),
     fixtures.boot).
Proof.
  apply (first_failed_check_reported fixtures.strict
           (fixtures.always httpx.TimesOut)).
  reflexivity.
Defined.

Lemma accepted_dhaka_query : ~ spec.rejected fixtures.dhaka_query.
Proof.
  intros [Hb|[Hp|[Hp|Hp]]]; [discriminate Hb | | |]; vm_compute in Hp;
    discriminate Hp.
Qed.

Lemma api_error_carries_message_witness :
  exists w',
    scraper.search_jobs fixtures.strict
      (fixtures.always
         (fixtures.ok (py.JObject [("statuscode", py.JString "0");
                                   ("message", py.JString "Quota exceeded")])))
      fixtures.dhaka_query fixtures.boot
    = (runtime.Raise (runtime.RuntimeError "API error: Quota exceeded"), w').
Proof.
  edestruct (api_error_carries_message fixtures.strict
               (fixtures.always
                  (fixtures.ok
                     (py.JObject [("statuscode", py.JString "0");
                                  ("message", py.JString "Quota exceeded")])))
               fixtures.dhaka_query fixtures.boot)
    as (text & w' & Hrun & _ & Hm & _).
  - exact accepted_dhaka_query.
  - reflexivity.
  - reflexivity.
  - reflexivity.
  - eexists. eexists. split; [reflexivity|]. split; [reflexivity|].
    split; [reflexivity | discriminate].
  - exists w'. rewrite Hrun, (Hm _ eq_refl). reflexivity.
Defined.

Lemma shape_failure_reported_witness :
  fst (scraper.search_jobs fixtures.strict
         (fixtures.always (fixtures.ok (py.JArray [])))
         fixtures.dhaka_query fixtures.boot)
  = runtime.Raise
      (runtime.TypeError
         "jobpulse.models.SearchResults() argument after ** must be a mapping, not list").
Proof.
  assert (Hquiet : ~ spec.signals_api_error (py.JArray [])).
  { intros (d & sc & H & _). discriminate H. }
  apply (proj2 (shape_failure_reported fixtures.strict
                  (fixtures.always (fixtures.ok (py.JArray [])))
                  fixtures.dhaka_query fixtures.boot
                  (httpx.Response 200 (inr (py.JArray []))) (py.JArray [])
                  accepted_dhaka_query eq_refl eq_refl eq_refl Hquiet)).
  intros kw H. discriminate H.
Defined.

Lemma returned_page_status_witness :
  exists page,
    fst (scraper.search_jobs fixtures.strict
           (fixtures.always (fixtures.ok fixtures.page_body))
           fixtures.dhaka_query fixtures.boot) = runtime.Return page
    /\ (models.statuscode page = "1" \/ models.statuscode page = "").
Proof.
  eexists. split; [vm_compute; reflexivity|].
  apply (returned_page_status fixtures.strict
           (fixtures.always (fixtures.ok fixtures.page_body))
           fixtures.dhaka_query fixtures.boot).
  vm_compute. reflexivity.
Defined.

Lemma rate_limit_waits_at_most_once_witness :
  runtime.clock (snd (http_client.rate_limit fixtures.boot))
  = runtime.clock fixtures.boot
  /\ runtime.sleeps (snd (http_client.rate_limit fixtures.boot)) = [].
Proof.
  destruct (rate_limit_waits_at_most_once fixtures.boot)
    as (_ & _ & _ & _ & H & _).
  apply H. vm_compute. discriminate.
Defined.
